(** * bedrock-chatbot-lambda: the model-dialect adaptation layer

    A shallow embedding of [services/bedrock-service.js], [config.js],
    [utils/helpers.js], [utils/logger.js] and the Lambda entry point
    [index.js], followed by the properties of the dialect layer, the two
    invokers and the request handler.

    JavaScript values are an inductive type; a string is a sequence of code
    units, written as a Rocq [string] (one [ascii] per code unit, so the
    model covers code units below 256).  Code that can throw returns an
    [Exc]; code that logs, draws random numbers or calls the backend runs
    in the monad [M], which threads the trace of effects. *)

From Stdlib Require Import String Ascii List ZArith Bool Lia DecimalString.
Import ListNotations.
Local Open Scope string_scope.

Set Warnings "-register-all".

(** ** JavaScript values *)

(** A JS number.  A finite number is kept as the decimal [m * 10^e] it
    denotes; the program never computes with numbers, it tests them for
    truthiness and prints them. *)
Inductive JsNumber : Type :=
| NFinite (m e : Z)
| NNaN
| NInfinity (negative : bool).

Inductive JsValue : Type :=
| JUndefined
| JNull
| JBool (b : bool)
| JNum (n : JsNumber)
| JStr (s : string)
| JArr (items : list JsValue)
| JObj (fields : list (string * JsValue)).

(** An object is the list of its own properties in enumeration order, each
    key at most once (what [JSON.parse] and an object literal produce). *)
Definition Fields := list (string * JsValue).

(** A thrown value.  Everything this program and its platform throw is an
    [Error] instance: it has a [name] and a [message]; the SDK's exceptions
    carry further own properties ([$fault], [$metadata], ...). *)
Record JsError : Type := mkError {
  err_name : string;
  err_message : string;
  err_extra : Fields
}.

(** [new Error(msg)] *)
Definition new_Error (msg : string) : JsError := mkError "Error" msg [].
Definition TypeError (msg : string) : JsError := mkError "TypeError" msg [].
Definition SyntaxError (msg : string) : JsError := mkError "SyntaxError" msg [].

Inductive Exc (A : Type) : Type :=
| Ok (a : A)
| Throw (e : JsError).
Arguments Ok {A} a.
Arguments Throw {A} e.

(** ** Truthiness and [||] *)

Definition number_truthy (n : JsNumber) : bool :=
  match n with
  | NFinite m _ => negb (m =? 0)%Z
  | NNaN => false
  | NInfinity _ => true
  end.

(** ToBoolean *)
Definition truthy (v : JsValue) : bool :=
  match v with
  | JUndefined | JNull => false
  | JBool b => b
  | JNum n => number_truthy n
  | JStr s => negb (s =? EmptyString)
  | JArr _ | JObj _ => true
  end.

(** [a || b] on values already computed *)
Definition js_or (a b : JsValue) : JsValue := if truthy a then a else b.

(** ** Property access *)

Fixpoint lookup (key : string) (fields : Fields) : option JsValue :=
  match fields with
  | [] => None
  | (k, v) :: rest => if k =? key then Some v else lookup key rest
  end.

Definition of_option (o : option JsValue) : JsValue :=
  match o with Some v => v | None => JUndefined end.

Definition js_length (s : string) : JsValue :=
  JNum (NFinite (Z.of_nat (String.length s)) 0).

(** [v.key] for a key that is no array index.  The keys this program reads
    ([body], [message], [sessionId], [completion], ...) are members of no
    built-in prototype, [length] apart, so only own properties count. *)
Definition get (v : JsValue) (key : string) : Exc JsValue :=
  match v with
  | JUndefined =>
      Throw (TypeError ("Cannot read properties of undefined (reading '" ++ key ++ "')"))
  | JNull =>
      Throw (TypeError ("Cannot read properties of null (reading '" ++ key ++ "')"))
  | JBool _ | JNum _ => Ok JUndefined
  | JStr s => Ok (if key =? "length" then js_length s else JUndefined)
  | JArr items =>
      Ok (if key =? "length"
          then JNum (NFinite (Z.of_nat (List.length items)) 0)
          else JUndefined)
  | JObj fields => Ok (of_option (lookup key fields))
  end.

(** [v[0]] *)
Definition get0 (v : JsValue) : Exc JsValue :=
  match v with
  | JUndefined =>
      Throw (TypeError "Cannot read properties of undefined (reading '0')")
  | JNull =>
      Throw (TypeError "Cannot read properties of null (reading '0')")
  | JBool _ | JNum _ => Ok JUndefined
  | JStr s =>
      Ok (match s with
          | EmptyString => JUndefined
          | String c _ => JStr (String c EmptyString)
          end)
  | JArr items => Ok (of_option (hd_error items))
  | JObj fields => Ok (of_option (lookup "0" fields))
  end.

(** Optional chaining: [v?.key] and [v?.[0]] yield undefined on null and
    undefined and never throw. *)
Definition opt_get (v : JsValue) (key : string) : JsValue :=
  match get v key with Ok x => x | Throw _ => JUndefined end.

Definition opt_get0 (v : JsValue) : JsValue :=
  match get0 v with Ok x => x | Throw _ => JUndefined end.

(** ** JSON.stringify *)

(** The code unit 0x22 and the one-character string that holds it. *)
Definition dquote : ascii := ascii_of_nat 34.
Definition dq : string := String dquote EmptyString.

Definition hex_digit (n : nat) : ascii :=
  match n with
  | 0 => "0" | 1 => "1" | 2 => "2" | 3 => "3" | 4 => "4" | 5 => "5"
  | 6 => "6" | 7 => "7" | 8 => "8" | 9 => "9" | 10 => "a" | 11 => "b"
  | 12 => "c" | 13 => "d" | 14 => "e" | _ => "f"
  end%char.

(** One code unit of a quoted JSON string (QuoteJSONString). *)
Definition quote_char (c : ascii) : string :=
  let n := nat_of_ascii c in
  if (n =? 34)%nat then String "\" dq
  else if (n =? 92)%nat then "\\"
  else if (n =? 8)%nat then "\b"
  else if (n =? 9)%nat then "\t"
  else if (n =? 10)%nat then "\n"
  else if (n =? 12)%nat then "\f"
  else if (n =? 13)%nat then "\r"
  else if (n <? 32)%nat then
    "\u00" ++ String (hex_digit (n / 16)) (String (hex_digit (n mod 16)) EmptyString)
  else String c EmptyString.

Fixpoint quote_chars (s : string) : string :=
  match s with
  | EmptyString => EmptyString
  | String c rest => quote_char c ++ quote_chars rest
  end.

Definition quote (s : string) : string := dq ++ quote_chars s ++ dq.

Fixpoint join_comma (parts : list string) : string :=
  match parts with
  | [] => EmptyString
  | [p] => p
  | p :: rest => p ++ "," ++ join_comma rest
  end.

(** ** The platform

    What the program takes from the JavaScript runtime and from the AWS
    SDK, and does not define itself. *)

Record InvokeModelCommand : Type := mkCommand {
  cmd_modelId : string;
  cmd_contentType : string;
  cmd_accept : string;
  cmd_body : JsValue
}.

(** The SDK's answer: [body] is a [Uint8Array]. *)
Record Response : Type := mkResponse {
  response_body : list Byte.byte
}.

Record Runtime : Type := mkRuntime {
  (** [Number.prototype.toString(radix)] on a finite number *)
  Number_toString : Z -> JsNumber -> string;
  (** [JSON.parse(v)], a SyntaxError on text that is no JSON *)
  JSON_parse : JsValue -> Exc JsValue;
  (** [new TextDecoder().decode(bytes)] *)
  TextDecoder_decode : list Byte.byte -> string;
  (** the value of the n-th call of [Math.random()] *)
  Math_random : nat -> JsNumber;
  (** [bedrockClient.send(command)], awaited *)
  bedrockClient_send : InvokeModelCommand -> Exc Response
}.

(** ** Effects *)

Inductive LogLevel : Type := LError | LWarn | LInfo | LDebug | LTrace.

(** A value handed to the logger: a JS value or a caught error. *)
Inductive Detail : Type :=
| DVal (v : JsValue)
| DErr (e : JsError).

(** The trace records every call of the logger (whether the sink prints
    the entry, which [utils/logger.js] decides from the configured level,
    is the sink's business) and every command sent to the backend. *)
Inductive Event : Type :=
| EvLog (level : LogLevel) (message : string) (details : list (string * Detail))
| EvSend (command : InvokeModelCommand).

Record State : Type := mkState {
  events : list Event;   (* oldest first *)
  draws : nat            (* calls of Math.random() so far *)
}.

Definition M (A : Type) : Type := State -> Exc A * State.

Definition ret {A} (a : A) : M A := fun st => (Ok a, st).

Definition bind {A B} (m : M A) (k : A -> M B) : M B :=
  fun st =>
    match m st with
    | (Ok a, st') => k a st'
    | (Throw e, st') => (Throw e, st')
    end.

Definition throw {A} (e : JsError) : M A := fun st => (Throw e, st).

(** [try { m } catch (error) { handler error }] *)
Definition try_catch {A} (m : M A) (handler : JsError -> M A) : M A :=
  fun st =>
    match m st with
    | (Ok a, st') => (Ok a, st')
    | (Throw e, st') => handler e st'
    end.

Definition lift {A} (x : Exc A) : M A := fun st => (x, st).

Definition emit (ev : Event) : M unit :=
  fun st => (Ok tt, mkState (events st ++ [ev]) (draws st)).

Declare Scope js_scope.
Delimit Scope js_scope with js.
Notation "x <- m ;; k" := (bind m (fun x => k))
  (at level 61, m at next level, right associativity) : js_scope.
Notation "m ;; k" := (bind m (fun _ => k))
  (at level 61, right associativity) : js_scope.
Local Open Scope js_scope.

Definition logger (level : LogLevel) (message : string)
    (details : list (string * Detail)) : M unit :=
  emit (EvLog level message details).

(** ** config.js: the resolved settings *)

Record BedrockConfig : Type := mkBedrock {
  useAgent : bool;
  modelId : string;
  maxTokens : JsNumber;
  temperature : JsNumber;
  agentId : option string;       (* process.env.BEDROCK_AGENT_ID *)
  agentAliasId : option string   (* process.env.BEDROCK_AGENT_ALIAS_ID *)
}.

Record Config : Type := mkConfig {
  bedrock : BedrockConfig;
  allowedOrigins : list string;              (* config.http.allowedOrigins *)
  INCLUDE_ERROR_DETAILS : option string      (* process.env.INCLUDE_ERROR_DETAILS *)
}.

(** An environment variable as a JS value: a string, or undefined. *)
Definition env_value (o : option string) : JsValue :=
  match o with Some s => JStr s | None => JUndefined end.

Definition nl : string := String (ascii_of_nat 10) EmptyString.

(** [s.startsWith(p)] *)
Fixpoint startsWith (s p : string) {struct p} : bool :=
  match p with
  | EmptyString => true
  | String a p' =>
      match s with
      | EmptyString => false
      | String b s' => Ascii.eqb a b && startsWith s' p'
      end
  end.

(** The receiver of [message.substring(0, 100)]: only a string has the
    method, on any other value the call is a TypeError. *)
Definition substring_receiver (message : JsValue) : Exc string :=
  match message with
  | JStr s => Ok s
  | JUndefined =>
      Throw (TypeError "Cannot read properties of undefined (reading 'substring')")
  | JNull =>
      Throw (TypeError "Cannot read properties of null (reading 'substring')")
  | _ => Throw (TypeError "message.substring is not a function")
  end.

(** [obj.key = v] on an object: an existing key keeps its place, a new one
    goes last.  On anything else the assignment has no effect. *)
Fixpoint set_field (key : string) (v : JsValue) (fields : Fields) : Fields :=
  match fields with
  | [] => [(key, v)]
  | (k, x) :: rest =>
      if k =? key then (k, v) :: rest else (k, x) :: set_field key v rest
  end.

Definition assign (obj : JsValue) (key : string) (v : JsValue) : JsValue :=
  match obj with
  | JObj fields => JObj (set_field key v fields)
  | _ => obj
  end.

(** [v === 'text'] *)
Definition strict_eq_string (v : JsValue) (text : string) : bool :=
  match v with
  | JStr s => s =? text
  | _ => false
  end.

Section Program.

Variable rt : Runtime.
Variable config : Config.

(** JSON.stringify: SerializeJSONProperty, [None] for undefined. *)
Fixpoint serialize (v : JsValue) : option string :=
  match v with
  | JUndefined => None
  | JNull => Some "null"
  | JBool true => Some "true"
  | JBool false => Some "false"
  | JNum (NFinite m e) => Some (Number_toString rt 10 (NFinite m e))
  | JNum _ => Some "null"
  | JStr s => Some (quote s)
  | JArr items =>
      Some ("[" ++ join_comma
              (map (fun x => match serialize x with
                             | Some t => t
                             | None => "null"
                             end) items) ++ "]")
  | JObj fields =>
      Some ("{" ++ join_comma
              ((fix members (l : Fields) : list string :=
                  match l with
                  | [] => []
                  | (k, x) :: rest =>
                      match serialize x with
                      | Some t => (quote k ++ ":" ++ t) :: members rest
                      | None => members rest
                      end
                  end) fields) ++ "}")
  end.

Definition JSON_stringify (v : JsValue) : JsValue :=
  match serialize v with Some t => JStr t | None => JUndefined end.

(** *** services/bedrock-service.js *)

Definition preparePromptForModel (message : string) (modelId : string)
  : M JsValue :=
  if startsWith modelId "anthropic.claude" then
    ret (JObj
      [("prompt", JStr (nl ++ nl ++ "Human: You are a helpful DevOps assistant. Please respond to this question: "
                        ++ message ++ nl ++ nl ++ "Assistant:"));
       ("max_tokens_to_sample", JNum (maxTokens (bedrock config)));
       ("temperature", JNum (temperature (bedrock config)));
       ("top_k", JNum (NFinite 250 0));
       ("top_p", JNum (NFinite 999 (-3)));
       ("stop_sequences", JArr [JStr (nl ++ nl ++ "Human:")])])
  else if startsWith modelId "ai21" then
    ret (JObj
      [("prompt", JStr ("You are a helpful DevOps assistant. Please respond to this question: "
                        ++ message));
       ("maxTokens", JNum (maxTokens (bedrock config)));
       ("temperature", JNum (temperature (bedrock config)));
       ("topP", JNum (NFinite 9 (-1)))])
  else if startsWith modelId "amazon.titan" then
    ret (JObj
      [("inputText", JStr ("You are a helpful DevOps assistant. Please respond to this question: "
                           ++ message));
       ("textGenerationConfig", JObj
          [("maxTokenCount", JNum (maxTokens (bedrock config)));
           ("temperature", JNum (temperature (bedrock config)));
           ("topP", JNum (NFinite 9 (-1)))])])
  else if startsWith modelId "cohere" then
    ret (JObj
      [("prompt", JStr ("You are a helpful DevOps assistant. Please respond to this question: "
                        ++ message));
       ("max_tokens", JNum (maxTokens (bedrock config)));
       ("temperature", JNum (temperature (bedrock config)));
       ("p", JNum (NFinite 9 (-1)))])
  else
    logger LWarn "Using default prompt format for unknown model type"
           [("modelId", DVal (JStr modelId))] ;;
    ret (JObj
      [("prompt", JStr message);
       ("max_tokens_to_sample", JNum (maxTokens (bedrock config)));
       ("temperature", JNum (temperature (bedrock config)))]).

Definition extractModelResponse (response : Response) (modelId : string)
  : M JsValue :=
  responseBody <- lift (JSON_parse rt
                          (JStr (TextDecoder_decode rt (response_body response)))) ;;
  logger LDebug "Raw model response"
         [("responseBody", DVal (JSON_stringify responseBody))] ;;
  if startsWith modelId "anthropic.claude" then
    completion <- lift (get responseBody "completion") ;;
    ret (js_or completion (JStr "No response from Claude model"))
  else if startsWith modelId "ai21" then
    completions <- lift (get responseBody "completions") ;;
    ret (js_or (opt_get (opt_get (opt_get0 completions) "data") "text")
               (JStr "No response from AI21 model"))
  else if startsWith modelId "amazon.titan" then
    results <- lift (get responseBody "results") ;;
    ret (js_or (opt_get (opt_get0 results) "outputText")
               (JStr "No response from Titan model"))
  else if startsWith modelId "cohere" then
    generations <- lift (get responseBody "generations") ;;
    ret (js_or (opt_get (opt_get0 generations) "text")
               (JStr "No response from Cohere model"))
  else
    logger LDebug "Unknown model response structure"
           [("responseBody", DVal (JSON_stringify responseBody))] ;;
    completion <- lift (get responseBody "completion") ;;
    if truthy completion then ret completion else
    generation <- lift (get responseBody "generation") ;;
    if truthy generation then ret generation else
    answer <- lift (get responseBody "answer") ;;
    if truthy answer then ret answer else
    response <- lift (get responseBody "response") ;;
    if truthy response then ret response else
    ret (JSON_stringify responseBody).

(** The [try] block of [invokeBedrockModel]. *)
Definition invokeBedrockModel_try (message : JsValue) : M JsValue :=
  text <- lift (substring_receiver message) ;;
  logger LInfo "Calling Bedrock model"
         [("modelId", DVal (JStr (modelId (bedrock config))));
          ("message", DVal (JStr (substring 0 100 text ++
              (if (100 <? String.length text)%nat then "..." else EmptyString))))] ;;
  let modelId := modelId (bedrock config) in
  prompt <- preparePromptForModel text modelId ;;
  logger LDebug "Prepared prompt for model"
         [("modelId", DVal (JStr modelId));
          ("prompt", DVal (JSON_stringify prompt))] ;;
  let params := mkCommand modelId "application/json" "application/json"
                          (JSON_stringify prompt) in
  emit (EvSend params) ;;
  response <- lift (bedrockClient_send rt params) ;;
  responseText <- extractModelResponse response modelId ;;
  responseLength <- lift (get responseText "length") ;;
  logger LInfo "Successfully received model response"
         [("responseLength", DVal responseLength)] ;;
  ret (JObj [("message", responseText)]).

Definition invokeBedrockModel (message : JsValue) : M JsValue :=
  try_catch (invokeBedrockModel_try message)
    (fun error =>
       logger LError "Error calling Bedrock model" [("error", DErr error)] ;;
       throw (new_Error ("Error calling Bedrock model: " ++ err_message error))).

Definition agent_placeholder : string :=
  "This is a placeholder response. To implement an actual Bedrock agent, you'll need to follow AWS documentation for the specific API calls.".

Definition invokeBedrockAgent (message sessionId : JsValue) : M JsValue :=
  try_catch
    (logger LInfo "Calling Bedrock agent"
            [("agentId", DVal (env_value (agentId (bedrock config))));
             ("agentAliasId", DVal (env_value (agentAliasId (bedrock config))));
             ("sessionId", DVal sessionId)] ;;
     if negb (truthy (env_value (agentId (bedrock config))))
        || negb (truthy (env_value (agentAliasId (bedrock config))))
     then throw (new_Error "Bedrock agent configuration is incomplete")
     else
       logger LWarn "Agent implementation is incomplete" [] ;;
       ret (JObj [("message", JStr agent_placeholder);
                  ("implementationStatus", JStr "pending")]))
    (fun error =>
       logger LError "Error calling Bedrock agent" [("error", DErr error)] ;;
       throw (new_Error ("Error calling Bedrock agent: " ++ err_message error))).

Definition handleBedrockRequest (message sessionId : JsValue) : M JsValue :=
  try_catch
    (logger LInfo "Processing Bedrock request"
            [("message", DVal message); ("sessionId", DVal sessionId)] ;;
     if useAgent (bedrock config)
     then invokeBedrockAgent message sessionId
     else invokeBedrockModel message)
    (fun error =>
       logger LError "Error in Bedrock request handler" [("error", DErr error)] ;;
       throw error).

(** *** utils/helpers.js *)

Record HttpResponse : Type := mkHttp {
  statusCode : Z;
  headers : Fields;
  body : JsValue
}.

Definition getCorsHeaders : M Fields :=
  if existsb (String.eqb "*") (allowedOrigins config) then
    ret [("Access-Control-Allow-Origin", JStr "*");
         ("Access-Control-Allow-Methods", JStr "OPTIONS,POST,GET");
         ("Access-Control-Allow-Headers",
          JStr "Content-Type,X-Amz-Date,Authorization,X-Api-Key,X-Amz-Security-Token")]
  else
    logger LWarn "Specific CORS origins are configured but not fully implemented" [] ;;
    ret [("Access-Control-Allow-Origin",
          match hd_error (allowedOrigins config) with
          | Some o => JStr o
          | None => JUndefined
          end);
         ("Access-Control-Allow-Methods", JStr "OPTIONS,POST,GET");
         ("Access-Control-Allow-Headers",
          JStr "Content-Type,X-Amz-Date,Authorization,X-Api-Key,X-Amz-Security-Token")].

Definition formatResponse (statusCode : Z) (body : JsValue) : M HttpResponse :=
  corsHeaders <- getCorsHeaders ;;
  ret (mkHttp statusCode
              (("Content-Type", JStr "application/json") :: corsHeaders)
              (JSON_stringify body)).

Definition Math_random_call : M JsNumber :=
  fun st => (Ok (Math_random rt (draws st)), mkState (events st) (S (draws st))).

Definition generateSessionId : M string :=
  r1 <- Math_random_call ;;
  r2 <- Math_random_call ;;
  ret (substring 2 13 (Number_toString rt 36 r1) ++
       substring 2 13 (Number_toString rt 36 r2)).

(** What [validateRequest] returns: [{ valid, body, error }], a field that
    the object lacks reading as undefined. *)
Record Validation : Type := mkValidation {
  valid : bool;
  vbody : JsValue;
  verror : JsValue
}.

Definition validateRequest (event : JsValue) : M Validation :=
  try_catch
    (event_body <- lift (get event "body") ;;
     if negb (truthy event_body) then
       ret (mkValidation false JUndefined (JStr "Request body is required"))
     else
       body <- lift (JSON_parse rt event_body) ;;
       body_message <- lift (get body "message") ;;
       if negb (truthy body_message) then
         ret (mkValidation false JUndefined (JStr "Message is required"))
       else
         body_sessionId <- lift (get body "sessionId") ;;
         if negb (truthy body_sessionId) then
           sessionId <- generateSessionId ;;
           let body := assign body "sessionId" (JStr sessionId) in
           logged <- lift (get body "sessionId") ;;
           logger LInfo "Generated session ID for request"
                  [("sessionId", DVal logged)] ;;
           ret (mkValidation true body JUndefined)
         else
           ret (mkValidation true body JUndefined))
    (fun error =>
       logger LError "Error validating request" [("error", DErr error)] ;;
       ret (mkValidation false JUndefined (JStr "Invalid request format"))).

(** *** index.js *)

(** The [try] block of the handler. *)
Definition handler_try (event : JsValue) : M HttpResponse :=
  logger LInfo "Received event" [("event", DVal event)] ;;
  v <- validateRequest event ;;
  if negb (valid v) then
    logger LWarn "Invalid request" [("error", DVal (verror v))] ;;
    formatResponse 400 (JObj [("error", verror v)])
  else
    message <- lift (get (vbody v) "message") ;;
    sessionId <- lift (get (vbody v) "sessionId") ;;
    result <- handleBedrockRequest message sessionId ;;
    formatResponse 200 result.

Definition handler (event : JsValue) : M HttpResponse :=
  try_catch (handler_try event)
    (fun error =>
       logger LError "Unhandled error in Lambda handler" [("error", DErr error)] ;;
       formatResponse 500
         (JObj [("error", JStr "Internal server error");
                ("message",
                 if strict_eq_string (env_value (INCLUDE_ERROR_DETAILS config)) "true"
                 then JStr (err_message error)
                 else JUndefined)])).

End Program.


(** ** The dialect registry, as the specification describes it

    The source branches on prefixes; the specification speaks of an ordered
    table of families, the first matching prefix winning, with a default
    entry.  These definitions follow the specification and are compared
    with the source's functions below. *)

Inductive Family : Type := Claude | AI21 | Titan | Cohere.

Definition family_prefix (f : Family) : string :=
  match f with
  | Claude => "anthropic.claude"
  | AI21 => "ai21"
  | Titan => "amazon.titan"
  | Cohere => "cohere"
  end.

Definition registry : list Family := [Claude; AI21; Titan; Cohere].

(** [None] is the default entry. *)
Definition resolveDialect (modelId : string) : option Family :=
  find (fun f => startsWith modelId (family_prefix f)) registry.

Definition placeholder (f : Family) : string :=
  match f with
  | Claude => "No response from Claude model"
  | AI21 => "No response from AI21 model"
  | Titan => "No response from Titan model"
  | Cohere => "No response from Cohere model"
  end.

(** The parameter keys of each family's payload, in the table's words. *)
Definition family_keys (f : Family) : list string :=
  match f with
  | Claude => ["prompt"; "max_tokens_to_sample"; "temperature"; "top_k";
               "top_p"; "stop_sequences"]
  | AI21 => ["prompt"; "maxTokens"; "temperature"; "topP"]
  | Titan => ["inputText"; "textGenerationConfig"]
  | Cohere => ["prompt"; "max_tokens"; "temperature"; "p"]
  end.

(** The free-text field of each family's payload. *)
Definition text_field (f : Family) : string :=
  match f with
  | Titan => "inputText"
  | _ => "prompt"
  end.

Definition FRAMING : string :=
  "You are a helpful DevOps assistant. Please respond to this question: ".

(** [prompt] wraps [message] in the framing. *)
Definition framed (prompt message : string) : Prop :=
  exists before after, prompt = before ++ FRAMING ++ message ++ after.

(** A step of a response path: a property or the first element. *)
Inductive Step : Type := Key (k : string) | Index0.

(** The response field each family's text is read from. *)
Definition family_path (f : Family) : list Step :=
  match f with
  | Claude => [Key "completion"]
  | AI21 => [Key "completions"; Index0; Key "data"; Key "text"]
  | Titan => [Key "results"; Index0; Key "outputText"]
  | Cohere => [Key "generations"; Index0; Key "text"]
  end.

(** The value at the end of a path in a JSON document, when every
    container on the way is there. *)
Fixpoint at_path (path : list Step) (v : JsValue) : option JsValue :=
  match path with
  | [] => Some v
  | Key k :: rest =>
      match v with
      | JObj fields =>
          match lookup k fields with
          | Some x => at_path rest x
          | None => None
          end
      | _ => None
      end
  | Index0 :: rest =>
      match v with
      | JArr (x :: _) => at_path rest x
      | _ => None
      end
  end.

(** The path breaks off inside the document: a key that an object lacks,
    or the first element of an empty array. *)
Inductive Absent : list Step -> JsValue -> Prop :=
| Absent_key k rest fields :
    lookup k fields = None -> Absent (Key k :: rest) (JObj fields)
| Absent_under_key k rest fields x :
    lookup k fields = Some x -> Absent rest x ->
    Absent (Key k :: rest) (JObj fields)
| Absent_element rest :
    Absent (Index0 :: rest) (JArr [])
| Absent_under_element rest x xs :
    Absent rest x -> Absent (Index0 :: rest) (JArr (x :: xs)).

(** The smallest well-formed response of a family that carries [t]. *)
Definition synthetic_response (f : Family) (t : string) : JsValue :=
  match f with
  | Claude => JObj [("completion", JStr t)]
  | AI21 => JObj [("completions", JArr [JObj [("data", JObj [("text", JStr t)])]])]
  | Titan => JObj [("results", JArr [JObj [("outputText", JStr t)]])]
  | Cohere => JObj [("generations", JArr [JObj [("text", JStr t)]])]
  end.

Definition keys (v : JsValue) : list string :=
  match v with
  | JObj fields => map fst fields
  | _ => []
  end.

Definition sends (st : State) : list InvokeModelCommand :=
  flat_map (fun ev => match ev with EvSend c => [c] | EvLog _ _ _ => [] end)
           (events st).

(** An agent identifier is configured: set, and not to the empty string
    (what the guard [!config.bedrock.agentId] tests). *)
Definition present (o : option string) : bool := truthy (env_value o).

(** ** A test double of the platform

    The properties below hold for every runtime.  To run the program on
    concrete requests one runtime is fixed here: it parses the JSON texts
    of [test_documents] (every other text is a SyntaxError), decodes ASCII
    bytes, prints integers and fractions below one in decimal and, in base
    36, one half as [0.i], draws one half from [Math.random()], and lets
    the backend answer [reply]. *)

Definition test_documents : Fields :=
  [("{}", JObj []);
   ("null", JNull);
   ("{" ++ dq ++ "completion" ++ dq ++ ":" ++ dq ++ dq ++ "}",
    synthetic_response Claude EmptyString);
   ("{" ++ dq ++ "results" ++ dq ++ ":[{" ++ dq ++ "outputText" ++ dq ++ ":"
        ++ dq ++ "Running, Pending, Failed" ++ dq ++ "}]}",
    synthetic_response Titan "Running, Pending, Failed");
   ("{" ++ dq ++ "message" ++ dq ++ ":" ++ dq ++ "hello" ++ dq ++ "}",
    JObj [("message", JStr "hello")]);
   ("{" ++ dq ++ "message" ++ dq ++ ":" ++ dq ++ dq ++ "}",
    JObj [("message", JStr EmptyString)])].

Definition test_parse (v : JsValue) : Exc JsValue :=
  match v with
  | JStr s =>
      match lookup s test_documents with
      | Some document => Ok document
      | None => Throw (SyntaxError "Unexpected token in JSON")
      end
  | _ => Throw (SyntaxError "Unexpected token in JSON")
  end.

Fixpoint zeros (n : nat) : string :=
  match n with
  | O => EmptyString
  | S n' => String "0" (zeros n')
  end.

Definition test_number_toString (radix : Z) (n : JsNumber) : string :=
  if (radix =? 36)%Z then "0.i" else
  match n with
  | NFinite m (Zneg e) =>
      let digits := NilZero.string_of_int (Z.to_int m) in
      "0." ++ zeros (Pos.to_nat e - String.length digits) ++ digits
  | NFinite m _ => NilZero.string_of_int (Z.to_int m)
  | _ => "NaN"
  end.

Definition test_runtime (reply : Exc string) : Runtime :=
  mkRuntime test_number_toString test_parse string_of_list_byte
            (fun _ => NFinite 5 (-1))
            (fun _ => match reply with
                      | Ok text => Ok (mkResponse (list_byte_of_string text))
                      | Throw e => Throw e
                      end).

Definition test_config (useAgent : bool) (modelId : string)
    (agentId agentAliasId details : option string) : Config :=
  mkConfig (mkBedrock useAgent modelId (NFinite 1000 0) (NFinite 1 0)
                      agentId agentAliasId)
           ["*"] details.

Definition initial_state : State := mkState [] 0.

(** The text of a Titan answer. *)
Definition titan_reply : string :=
  "{" ++ dq ++ "results" ++ dq ++ ":[{" ++ dq ++ "outputText" ++ dq ++ ":"
      ++ dq ++ "Running, Pending, Failed" ++ dq ++ "}]}".

Definition claude_empty_reply : string :=
  "{" ++ dq ++ "completion" ++ dq ++ ":" ++ dq ++ dq ++ "}".

Definition hello_request : string :=
  "{" ++ dq ++ "message" ++ dq ++ ":" ++ dq ++ "hello" ++ dq ++ "}".

Definition reply_of (text : string) : Response :=
  mkResponse (list_byte_of_string text).

(** The settings of the Titan scenario: maxTokens 500, temperature 0.5. *)
Definition titan_config : Config :=
  mkConfig (mkBedrock false "amazon.titan-text-express-v1"
                      (NFinite 500 0) (NFinite 5 (-1)) None None)
           ["*"] None.

(** A failure of the transport, in the SDK's shape. *)
Definition throttling : JsError :=
  mkError "ThrottlingException" "Too many requests"
          [("$fault", JStr "client");
           ("$metadata", JObj [("httpStatusCode", JNum (NFinite 429 0))])].

(** An API Gateway event with the given body text. *)
Definition event_with_body (text : string) : JsValue :=
  JObj [("httpMethod", JStr "POST"); ("body", JStr text)].

(** ** Optional chaining along a path *)

Fixpoint follow (path : list Step) (v : JsValue) : JsValue :=
  match path with
  | [] => v
  | Key k :: rest => follow rest (opt_get v k)
  | Index0 :: rest => follow rest (opt_get0 v)
  end.

Definition nullish (v : JsValue) : bool :=
  match v with
  | JUndefined | JNull => true
  | _ => false
  end.

(** The parsed body of a backend response, as [extractModelResponse]
    obtains it. *)
Definition parsed (rt : Runtime) (response : Response) : Exc JsValue :=
  JSON_parse rt (JStr (TextDecoder_decode rt (response_body response))).

(** The default dialect's chain
    [completion || generation || answer || response || JSON.stringify(body)]. *)
Definition fallback_chain (rt : Runtime) (body : JsValue) : JsValue :=
  js_or (opt_get body "completion")
    (js_or (opt_get body "generation")
       (js_or (opt_get body "answer")
          (js_or (opt_get body "response") (JSON_stringify rt body)))).

(** The payload [preparePromptForModel] builds for a message; it does not
    depend on the history. *)
Definition payload_for (config : Config) (message modelId : string) : JsValue :=
  match fst (preparePromptForModel config message modelId initial_state) with
  | Ok payload => payload
  | Throw _ => JUndefined
  end.

(** The command [invokeBedrockModel] sends for a message. *)
Definition command_for (rt : Runtime) (config : Config) (message : string)
  : InvokeModelCommand :=
  mkCommand (modelId (bedrock config)) "application/json" "application/json"
            (JSON_stringify rt
               (payload_for config message (modelId (bedrock config)))).

Definition model_failure (e : JsError) : JsError :=
  new_Error ("Error calling Bedrock model: " ++ err_message e).

(** The two bodies of a 500 response. *)
Definition generic_body : string :=
  "{" ++ dq ++ "error" ++ dq ++ ":" ++ dq ++ "Internal server error" ++ dq ++ "}".

Definition detailed_body (message : string) : string :=
  "{" ++ dq ++ "error" ++ dq ++ ":" ++ dq ++ "Internal server error" ++ dq
      ++ "," ++ dq ++ "message" ++ dq ++ ":" ++ dq ++ quote_chars message ++ dq
      ++ "}".

(** The headers of every response, by [getCorsHeaders]. *)
Definition response_headers (config : Config) : Fields :=
  ("Content-Type", JStr "application/json") ::
  match fst (getCorsHeaders config initial_state) with
  | Ok corsHeaders => corsHeaders
  | Throw _ => []
  end.

Definition details_enabled (config : Config) : bool :=
  strict_eq_string (env_value (INCLUDE_ERROR_DETAILS config)) "true".

(** A failed validation: [{ valid: false, error: text }]. *)
Definition invalid (text : string) : Validation :=
  mkValidation false JUndefined (JStr text).

(** ** config.js: from the environment

    [config.js] reads [process.env] once.  [parseInt] and [parseFloat] are
    the platform's. *)

Record ProcessEnv : Type := mkEnv {
  env_USE_BEDROCK_AGENT : option string;
  env_BEDROCK_MODEL_ID : option string;
  env_BEDROCK_MAX_TOKENS : option string;
  env_BEDROCK_TEMPERATURE : option string;
  env_BEDROCK_AGENT_ID : option string;
  env_BEDROCK_AGENT_ALIAS_ID : option string;
  env_LOG_LEVEL : option string;
  env_INCLUDE_ERROR_DETAILS : option string;
  env_ALLOWED_ORIGINS : option string
}.

Record NumberParsers : Type := mkParsers {
  (** [parseInt(text, 10)] *)
  parseInt10 : string -> JsNumber;
  parseFloat : string -> JsNumber
}.

(** [process.env.X || fallback] *)
Definition or_default (o : option string) (fallback : string) : string :=
  match o with
  | Some s => if s =? EmptyString then fallback else s
  | None => fallback
  end.

(** [text.split(',')] *)
Fixpoint split_comma (text : string) : list string :=
  match text with
  | EmptyString => [EmptyString]
  | String c rest =>
      if Ascii.eqb c "," then EmptyString :: split_comma rest
      else match split_comma rest with
           | first :: others => String c first :: others
           | [] => [String c EmptyString]
           end
  end.

Record LoggingConfig : Type := mkLogging {
  logging_level : string;
  includeTimestamp : bool
}.

Definition load_config (parsers : NumberParsers) (env : ProcessEnv) : Config :=
  mkConfig
    (mkBedrock
       (strict_eq_string (env_value (env_USE_BEDROCK_AGENT env)) "true")
       (or_default (env_BEDROCK_MODEL_ID env)
                   "anthropic.claude-3-sonnet-20240229-v1:0")
       (parseInt10 parsers (or_default (env_BEDROCK_MAX_TOKENS env) "1000"))
       (parseFloat parsers (or_default (env_BEDROCK_TEMPERATURE env) "0.7"))
       (env_BEDROCK_AGENT_ID env)
       (env_BEDROCK_AGENT_ALIAS_ID env))
    (if truthy (env_value (env_ALLOWED_ORIGINS env))
     then split_comma (or_default (env_ALLOWED_ORIGINS env) EmptyString)
     else ["*"])
    (env_INCLUDE_ERROR_DETAILS env).

Definition load_logging (env : ProcessEnv) : LoggingConfig :=
  mkLogging (or_default (env_LOG_LEVEL env) "info") true.

(** ** utils/logger.js

    The sink behind the logger calls the trace records: [log] decides from
    the configured level whether a call is printed, and builds the line. *)

(** [c.toLowerCase()] on a code unit below 256. *)
Definition lower_char (c : ascii) : ascii :=
  let n := nat_of_ascii c in
  if ((65 <=? n) && (n <=? 90))%nat
     || ((192 <=? n) && (n <=? 222) && negb (n =? 215))%nat
  then ascii_of_nat (n + 32)
  else c.

Fixpoint toLowerCase (s : string) : string :=
  match s with
  | EmptyString => EmptyString
  | String c rest => String (lower_char c) (toLowerCase rest)
  end.

(** What [LOG_LEVELS[name]] is when it is not undefined: the number of one
    of the five levels, or a member that the object literal inherits from
    [Object.prototype], which is no number. *)
Inductive LevelEntry : Type :=
| EntryNumber (n : Z)
| EntryInherited.

Definition Object_prototype_members : list string :=
  ["constructor"; "__defineGetter__"; "__defineSetter__"; "hasOwnProperty";
   "__lookupGetter__"; "__lookupSetter__"; "isPrototypeOf";
   "propertyIsEnumerable"; "toString"; "valueOf"; "__proto__";
   "toLocaleString"].

Definition LOG_LEVELS (name : string) : option LevelEntry :=
  if name =? "error" then Some (EntryNumber 0)
  else if name =? "warn" then Some (EntryNumber 1)
  else if name =? "info" then Some (EntryNumber 2)
  else if name =? "debug" then Some (EntryNumber 3)
  else if name =? "trace" then Some (EntryNumber 4)
  else if existsb (String.eqb name) Object_prototype_members
       then Some EntryInherited
  else None.

Definition level_name (level : LogLevel) : string :=
  match level with
  | LError => "error"
  | LWarn => "warn"
  | LInfo => "info"
  | LDebug => "debug"
  | LTrace => "trace"
  end.

(** [(config.logging.level || 'info').toLowerCase()] *)
Definition configuredLevel (logging : LoggingConfig) : string :=
  toLowerCase (if logging_level logging =? EmptyString then "info"
               else logging_level logging).

Definition logLevelLimit (logging : LoggingConfig) : LevelEntry :=
  match LOG_LEVELS (configuredLevel logging) with
  | Some entry => entry
  | None => EntryNumber 2
  end.

(** [a > b]: a comparison with what is no number is false. *)
Definition greater (a b : LevelEntry) : bool :=
  match a, b with
  | EntryNumber x, EntryNumber y => (y <? x)%Z
  | _, _ => false
  end.

(** The log data is an object whose values are JS values or errors. *)
Definition LogData := list (string * Detail).

Fixpoint lookup_detail (key : string) (data : LogData) : option Detail :=
  match data with
  | [] => None
  | (k, d) :: rest => if k =? key then Some d else lookup_detail key rest
  end.

(** [data.key = d]: an existing key keeps its place, a new one goes last. *)
Fixpoint set_detail (key : string) (d : Detail) (data : LogData) : LogData :=
  match data with
  | [] => [(key, d)]
  | (k, x) :: rest =>
      if k =? key then (k, d) :: rest else (k, x) :: set_detail key d rest
  end.

(** [delete data.key] *)
Fixpoint delete_detail (key : string) (data : LogData) : LogData :=
  match data with
  | [] => []
  | (k, x) :: rest =>
      if k =? key then delete_detail key rest
      else (k, x) :: delete_detail key rest
  end.

(** [{ level, message, ...details }] *)
Definition spread_details (level : LogLevel) (message : string)
    (details : LogData) : LogData :=
  fold_left (fun data entry => set_detail (fst entry) (snd entry) data)
            details
            [("level", DVal (JStr (level_name level)));
             ("message", DVal (JStr message))].

(** The clock and the stack traces are the platform's. *)
Record Console : Type := mkConsole {
  (** [new Date().toISOString()] at the call *)
  Date_toISOString : string;
  (** [error.stack] *)
  Error_stack : JsError -> string
}.

(** The log data of a call that passes the level filter. *)
Definition logData_of (logging : LoggingConfig) (console : Console)
    (level : LogLevel) (message : string) (details : LogData) : LogData :=
  let logData := spread_details level message details in
  let logData :=
    if includeTimestamp logging
    then set_detail "timestamp" (DVal (JStr (Date_toISOString console))) logData
    else logData in
  match lookup_detail "error" details with
  | Some (DErr e) =>
      delete_detail "error"
        (set_detail "errorName" (DVal (JStr (err_name e)))
           (set_detail "errorStack" (DVal (JStr (Error_stack console e)))
              (set_detail "errorMessage" (DVal (JStr (err_message e)))
                 logData)))
  | _ => logData
  end.

(** A value as JSON.stringify sees it: of an error, its enumerable own
    properties. *)
Definition detail_value (d : Detail) : JsValue :=
  match d with
  | DVal v => v
  | DErr e => JObj (err_extra e)
  end.

(** [log(level, message, details)]: the line written to the console, or
    [None] when the level is filtered out. *)
Definition log (rt : Runtime) (logging : LoggingConfig) (console : Console)
    (level : LogLevel) (message : string) (details : LogData)
  : option JsValue :=
  let filtered :=
    match LOG_LEVELS (level_name level) with
    | Some entry => greater entry (logLevelLimit logging)
    | None => false
    end in
  if filtered then None
  else Some (JSON_stringify rt
               (JObj (map (fun entry => (fst entry, detail_value (snd entry)))
                          (logData_of logging console level message details)))).

(** The rank of a level: [LOG_LEVELS.error] is 0, ..., [LOG_LEVELS.trace]
    is 4. *)
Definition priority (level : LogLevel) : Z :=
  match level with
  | LError => 0
  | LWarn => 1
  | LInfo => 2
  | LDebug => 3
  | LTrace => 4
  end.

(** ** What a computation adds to the trace *)

Definition is_log (ev : Event) : bool :=
  match ev with
  | EvLog _ _ _ => true
  | EvSend _ => false
  end.

Definition only_logs (evs : list Event) : Prop := forallb is_log evs = true.

(** From every state, [m] appends to the trace some events that satisfy
    [P], and removes none. *)
Definition produces (P : list Event -> Prop) {A} (m : M A) : Prop :=
  forall st, exists added,
    events (snd (m st)) = (events st ++ added)%list /\ P added.

(** From every state, [m] sends a list of commands that satisfies [Q]. *)
Definition sends_some (Q : list InvokeModelCommand -> Prop) {A} (m : M A)
  : Prop :=
  forall st, exists l, sends (snd (m st)) = (sends st ++ l)%list /\ Q l.

(** No command, or the one command of a model invocation. *)
Definition at_most_one_command (rt : Runtime) (config : Config)
    (l : list InvokeModelCommand) : Prop :=
  l = [] \/
  (useAgent (bedrock config) = false /\
   exists text, l = [command_for rt config text]).

(** The event carries a body that parses to something with the truthy
    message [m]: the request passes [validateRequest]. *)
Definition valid_request (rt : Runtime) (event m : JsValue) : Prop :=
  exists b p,
    get event "body" = Ok b /\ truthy b = true /\
    JSON_parse rt b = Ok p /\
    get p "message" = Ok m /\ truthy m = true.

(** The body of a 500 response for an error. *)
Definition failure_body (config : Config) (e : JsError) : JsValue :=
  JStr (if details_enabled config
        then detailed_body (err_message e)
        else generic_body).

(** The added events start with [first]. *)
Definition begins_with (first added : list Event) : Prop :=
  exists rest, added = (first ++ rest)%list.

(** Further test doubles: a console, a runtime that parses the request
    [{ message: 5 }], and one whose numbers all print as "0". *)
Definition test_console : Console :=
  mkConsole "2024-01-01T00:00:00.000Z" (fun e => err_name e ++ ": " ++ err_message e).

Definition number_request : string :=
  "{" ++ dq ++ "message" ++ dq ++ ":5}".

Definition number_request_runtime : Runtime :=
  mkRuntime test_number_toString
            (fun v => if strict_eq_string v number_request
                      then Ok (JObj [("message", JNum (NFinite 5 0))])
                      else test_parse v)
            string_of_list_byte
            (fun _ => NFinite 5 (-1))
            (fun _ => Throw throttling).

Definition zero_runtime : Runtime :=
  mkRuntime (fun _ _ => "0") test_parse string_of_list_byte
            (fun _ => NFinite 0 0)
            (fun _ => Throw throttling).

(** The text that [invokeBedrockModel] logs for a message. *)
Definition logged_message (text : string) : string :=
  substring 0 100 text ++
  (if (100 <? String.length text)%nat then "..." else EmptyString).

(** No code unit of [s] is a capital letter A-Z. *)
Fixpoint no_capital (s : string) : bool :=
  match s with
  | EmptyString => true
  | String c rest =>
      ((nat_of_ascii c <? 65)%nat || (90 <? nat_of_ascii c)%nat)
      && no_capital rest
  end.

(** ** Missing response fields

    The family's text is missing from a document when the path to it
    breaks off at any depth: at an object that lacks the key, at an empty
    array, at [null] (on the way or as the value itself), or at a value
    that has no such member - a boolean, a number, a string or an array
    asked for a key, an empty string asked for its first element.  A string
    read by index gives its first character, and an object read by index
    its member "0", as property access does. *)
Inductive Missing : list Step -> JsValue -> Prop :=
| Missing_key k rest fields :
    lookup k fields = None -> Missing (Key k :: rest) (JObj fields)
| Missing_under_key k rest fields x :
    lookup k fields = Some x -> Missing rest x ->
    Missing (Key k :: rest) (JObj fields)
| Missing_element rest :
    Missing (Index0 :: rest) (JArr [])
| Missing_under_element rest x xs :
    Missing rest x -> Missing (Index0 :: rest) (JArr (x :: xs))
| Missing_null path :
    Missing path JNull
| Missing_undefined path :
    Missing path JUndefined
| Missing_in_boolean step rest b :
    Missing (step :: rest) (JBool b)
| Missing_in_number step rest n :
    Missing (step :: rest) (JNum n)
| Missing_key_of_string k rest s :
    k <> "length" -> Missing (Key k :: rest) (JStr s)
| Missing_key_of_array k rest items :
    k <> "length" -> Missing (Key k :: rest) (JArr items)
| Missing_element_of_empty_string rest :
    Missing (Index0 :: rest) (JStr EmptyString)
| Missing_under_character rest c s :
    Missing rest (JStr (String c EmptyString)) ->
    Missing (Index0 :: rest) (JStr (String c s))
| Missing_member_0 rest fields :
    lookup "0" fields = None -> Missing (Index0 :: rest) (JObj fields)
| Missing_under_member_0 rest fields x :
    lookup "0" fields = Some x -> Missing rest x ->
    Missing (Index0 :: rest) (JObj fields).

(** ** The payload of each family, as the specification's table has it

    The sampling parameters with their keys, and the payload they sit in:
    beside the prompt for Claude, AI21 and Cohere, in a nested
    [textGenerationConfig] for Titan. *)
Definition family_parameters (config : Config) (f : Family) : Fields :=
  match f with
  | Claude =>
      [("max_tokens_to_sample", JNum (maxTokens (bedrock config)));
       ("temperature", JNum (temperature (bedrock config)));
       ("top_k", JNum (NFinite 250 0));
       ("top_p", JNum (NFinite 999 (-3)));
       ("stop_sequences", JArr [JStr (nl ++ nl ++ "Human:")])]
  | AI21 =>
      [("maxTokens", JNum (maxTokens (bedrock config)));
       ("temperature", JNum (temperature (bedrock config)));
       ("topP", JNum (NFinite 9 (-1)))]
  | Titan =>
      [("maxTokenCount", JNum (maxTokens (bedrock config)));
       ("temperature", JNum (temperature (bedrock config)));
       ("topP", JNum (NFinite 9 (-1)))]
  | Cohere =>
      [("max_tokens", JNum (maxTokens (bedrock config)));
       ("temperature", JNum (temperature (bedrock config)));
       ("p", JNum (NFinite 9 (-1)))]
  end.

Definition family_parameter_keys (f : Family) : list string :=
  match f with
  | Claude => ["max_tokens_to_sample"; "temperature"; "top_k"; "top_p";
               "stop_sequences"]
  | AI21 => ["maxTokens"; "temperature"; "topP"]
  | Titan => ["maxTokenCount"; "temperature"; "topP"]
  | Cohere => ["max_tokens"; "temperature"; "p"]
  end.

(** The framed message: a Human/Assistant turn for Claude. *)
Definition family_prompt (f : Family) (message : string) : string :=
  match f with
  | Claude => nl ++ nl ++ "Human: " ++ FRAMING ++ message
                 ++ nl ++ nl ++ "Assistant:"
  | _ => FRAMING ++ message
  end.

Definition family_payload (config : Config) (f : Family) (message : string)
  : JsValue :=
  match f with
  | Titan =>
      JObj [("inputText", JStr (family_prompt Titan message));
            ("textGenerationConfig", JObj (family_parameters config Titan))]
  | _ =>
      JObj (("prompt", JStr (family_prompt f message))
            :: family_parameters config f)
  end.

(** The object that holds a family's parameters in a payload. *)
Definition parameters_of (f : Family) (payload : JsValue) : JsValue :=
  match f with
  | Titan => opt_get payload "textGenerationConfig"
  | _ => payload
  end.

(** A runtime whose backend answers with a body that parses to [document]. *)
Definition runtime_answering (document : JsValue) : Runtime :=
  mkRuntime test_number_toString (fun _ => Ok document) string_of_list_byte
            (fun _ => NFinite 5 (-1))
            (fun _ => Ok (mkResponse [])).

(** * Properties *)

(** ** Strings and paths *)

Lemma length_append (s t : string) :
  String.length (s ++ t) = String.length s + String.length t.
Proof.
  induction s as [|c s IH]; simpl; [reflexivity | now rewrite IH].
Qed.

Lemma get_not_nullish (v : JsValue) (k : string) :
  nullish v = false -> get v k = Ok (opt_get v k).
Proof.
  unfold opt_get; destruct v; simpl; intros H; try discriminate; reflexivity.
Qed.

Lemma get_nullish (v : JsValue) (k : string) :
  nullish v = true -> exists e, get v k = Throw e /\ err_name e = "TypeError".
Proof.
  destruct v; simpl; intros H; try discriminate; eexists; split; reflexivity.
Qed.

Lemma follow_undefined (path : list Step) : follow path JUndefined = JUndefined.
Proof.
  induction path as [|[k|] rest IH]; simpl; auto.
Qed.

(** Where the document has a value at the path, optional chaining finds it. *)
Lemma at_path_follow (path : list Step) :
  forall v x, at_path path v = Some x -> follow path v = x.
Proof.
  induction path as [|[k|] rest IH]; simpl; intros v x H.
  - now inversion H.
  - destruct v; try discriminate.
    unfold opt_get; simpl.
    destruct (lookup k fields) as [y|]; [|discriminate].
    now apply IH.
  - destruct v as [| | | | |[|y ys]|]; try discriminate.
    unfold opt_get0; simpl. now apply IH.
Qed.

(** Where the path breaks off, optional chaining yields undefined. *)
Lemma Absent_follow (path : list Step) (v : JsValue) :
  Absent path v -> follow path v = JUndefined.
Proof.
  induction 1 as [k rest fields Hk | k rest fields x Hk _ IH | rest | rest x xs _ IH];
    simpl; unfold opt_get, opt_get0; simpl.
  - rewrite Hk; simpl. apply follow_undefined.
  - rewrite Hk; simpl. exact IH.
  - apply follow_undefined.
  - exact IH.
Qed.

Lemma synthetic_at_path (f : Family) (t : string) :
  at_path (family_path f) (synthetic_response f t) = Some (JStr t).
Proof.
  destruct f; reflexivity.
Qed.

Lemma truthy_string (t : string) : t <> EmptyString -> truthy (JStr t) = true.
Proof.
  intros H; simpl. destruct (String.eqb_spec t EmptyString); [contradiction | reflexivity].
Qed.

(** ** The dialect registry *)

(** What first-match-wins means for the four prefix tests. *)
Lemma resolveDialect_tests (modelId : string) :
  match resolveDialect modelId with
  | Some Claude => startsWith modelId "anthropic.claude" = true
  | Some AI21 =>
      startsWith modelId "anthropic.claude" = false /\
      startsWith modelId "ai21" = true
  | Some Titan =>
      startsWith modelId "anthropic.claude" = false /\
      startsWith modelId "ai21" = false /\
      startsWith modelId "amazon.titan" = true
  | Some Cohere =>
      startsWith modelId "anthropic.claude" = false /\
      startsWith modelId "ai21" = false /\
      startsWith modelId "amazon.titan" = false /\
      startsWith modelId "cohere" = true
  | None =>
      startsWith modelId "anthropic.claude" = false /\
      startsWith modelId "ai21" = false /\
      startsWith modelId "amazon.titan" = false /\
      startsWith modelId "cohere" = false
  end.
Proof.
  unfold resolveDialect, registry; cbn [find family_prefix].
  destruct (startsWith modelId "anthropic.claude"); [reflexivity|].
  destruct (startsWith modelId "ai21"); [auto|].
  destruct (startsWith modelId "amazon.titan"); [auto|].
  destruct (startsWith modelId "cohere"); auto.
Qed.

Lemma resolveDialect_prefix (f : Family) (suffix : string) :
  resolveDialect (family_prefix f ++ suffix) = Some f.
Proof.
  destruct f; reflexivity.
Qed.

Ltac run :=
  unfold bind, lift, ret, throw, logger, emit, try_catch in *; cbn [fst snd] in *.

Section Dialects.

Variable rt : Runtime.
Variable config : Config.

(** The text [extractModelResponse] returns, by the dialect of the model:
    the family's field or its placeholder, and the fallback chain for the
    default entry. *)
Lemma extract_by_dialect (response : Response) (modelId : string)
    (body : JsValue) (st : State) :
  parsed rt response = Ok body ->
  nullish body = false ->
  fst (extractModelResponse rt response modelId st) =
    Ok (match resolveDialect modelId with
        | Some f => js_or (follow (family_path f) body) (JStr (placeholder f))
        | None => fallback_chain rt body
        end).
Proof.
  intros Hparse Hbody.
  pose proof (resolveDialect_tests modelId) as Ht.
  unfold parsed in Hparse. unfold extractModelResponse. run. rewrite Hparse.
  destruct (resolveDialect modelId) as [[| | |]|].
  - rewrite Ht. rewrite (get_not_nullish body _ Hbody). reflexivity.
  - destruct Ht as [-> ->]. rewrite (get_not_nullish body _ Hbody). reflexivity.
  - destruct Ht as (-> & -> & ->). rewrite (get_not_nullish body _ Hbody). reflexivity.
  - destruct Ht as (-> & -> & -> & ->). rewrite (get_not_nullish body _ Hbody). reflexivity.
  - destruct Ht as (-> & -> & -> & ->).
    rewrite !(get_not_nullish body _ Hbody). unfold fallback_chain, js_or.
    destruct (truthy (opt_get body "completion")); [reflexivity|].
    destruct (truthy (opt_get body "generation")); [reflexivity|].
    destruct (truthy (opt_get body "answer")); [reflexivity|].
    destruct (truthy (opt_get body "response")); reflexivity.
Qed.

End Dialects.

Section DialectClaims.

Variable rt : Runtime.
Variable config : Config.

(** For a model of a known family the payload is built without a log entry
    and has the family's keys. *)
Lemma prepare_known (f : Family) (suffix message : string) (st : State) :
  exists payload,
    preparePromptForModel config message (family_prefix f ++ suffix) st
      = (Ok payload, st) /\
    keys payload = family_keys f /\
    exists text, get payload (text_field f) = Ok (JStr text) /\
                 framed text message.
Proof.
  destruct f; eexists; (split; [reflexivity|]); (split; [reflexivity|]);
    eexists; (split; [reflexivity|]).
  - exists (nl ++ nl ++ "Human: "), (nl ++ nl ++ "Assistant:"). reflexivity.
  - exists EmptyString, EmptyString. cbn. unfold FRAMING. cbn.
    repeat f_equal. induction message; cbn; congruence.
  - exists EmptyString, EmptyString. cbn. unfold FRAMING. cbn.
    repeat f_equal. induction message; cbn; congruence.
  - exists EmptyString, EmptyString. cbn. unfold FRAMING. cbn.
    repeat f_equal. induction message; cbn; congruence.
Qed.

(** For a model of no known family the payload is the default one: the
    message as it came, under [prompt], and the Claude-style keys. *)
Lemma prepare_default (modelId message : string) (st : State) :
  resolveDialect modelId = None ->
  exists st',
    preparePromptForModel config message modelId st
      = (Ok (JObj [("prompt", JStr message);
                   ("max_tokens_to_sample", JNum (maxTokens (bedrock config)));
                   ("temperature", JNum (temperature (bedrock config)))]), st').
Proof.
  intros Hd. pose proof (resolveDialect_tests modelId) as Ht.
  rewrite Hd in Ht. destruct Ht as (H1 & H2 & H3 & H4).
  unfold preparePromptForModel. rewrite H1, H2, H3, H4.
  eexists. reflexivity.
Qed.

(** What the code does about the framing: for every model of a known
    family (anthropic.claude, ai21, amazon.titan, cohere), whatever the
    suffix, the free-text field of the payload ([inputText] for Titan,
    [prompt] for the others) wraps the message in the fixed framing string
    followed by the message; for a model of no known family the payload's
    [prompt] is the message itself. *)
Lemma framing_by_dialect :
  (forall (f : Family) (suffix message : string) (st : State),
      exists payload text,
        preparePromptForModel config message (family_prefix f ++ suffix) st
          = (Ok payload, st) /\
        get payload (text_field f) = Ok (JStr text) /\
        framed text message) /\
  (forall (modelId message : string) (st : State),
      resolveDialect modelId = None ->
      exists payload st',
        preparePromptForModel config message modelId st = (Ok payload, st') /\
        get payload "prompt" = Ok (JStr message)).
Proof.
  split.
  - intros f suffix message st.
    destruct (prepare_known f suffix message st)
      as (payload & Hrun & _ & text & Hget & Hframed).
    now exists payload, text.
  - intros modelId message st Hd.
    destruct (prepare_default modelId message st Hd) as (st' & Hrun).
    eexists; exists st'. split; [exact Hrun | reflexivity].
Qed.

(** A body that cannot be parsed, or that is [null], makes the extraction
    throw. *)
Lemma extract_parse_failure (response : Response) (modelId : string)
    (e : JsError) (st : State) :
  parsed rt response = Throw e ->
  extractModelResponse rt response modelId st = (Throw e, st).
Proof.
  unfold parsed, extractModelResponse; intros H. run. now rewrite H.
Qed.

(** C2, as amended: for every known family, every settings value and every
    NON-EMPTY string t, building a payload and then extracting from a
    well-formed response of that family whose text field holds t returns
    exactly t. *)
Theorem C2_roundtrip_nonempty_text
    (f : Family) (suffix message t : string) (response : Response)
    (body : JsValue) (st : State) :
  parsed rt response = Ok body ->
  at_path (family_path f) body = Some (JStr t) ->
  t <> EmptyString ->
  exists payload,
    preparePromptForModel config message (family_prefix f ++ suffix) st
      = (Ok payload, st) /\
    fst (extractModelResponse rt response (family_prefix f ++ suffix) st)
      = Ok (JStr t).
Proof.
  intros Hparse Hpath Ht.
  destruct (prepare_known f suffix message st) as (payload & Hrun & _).
  exists payload; split; [exact Hrun|].
  assert (Hbody : nullish body = false).
  { destruct f, body; simpl in Hpath; try discriminate; reflexivity. }
  rewrite (extract_by_dialect rt response _ body st Hparse Hbody).
  rewrite resolveDialect_prefix, (at_path_follow _ _ _ Hpath).
  unfold js_or. now rewrite (truthy_string t Ht).
Qed.

(** C10: for every known family, a response whose text field is present
    but holds the empty string yields the family's placeholder, the same
    result as a response from which the field is absent. *)
Theorem C10_empty_text_gives_placeholder
    (f : Family) (suffix : string) (response : Response)
    (body : JsValue) (st : State) :
  parsed rt response = Ok body ->
  (at_path (family_path f) body = Some (JStr EmptyString) \/
   Absent (family_path f) body) ->
  fst (extractModelResponse rt response (family_prefix f ++ suffix) st)
    = Ok (JStr (placeholder f)).
Proof.
  intros Hparse Hcase.
  assert (Hbody : nullish body = false).
  { destruct Hcase as [Hpath | Habs]; [|now destruct Habs].
    destruct f, body; simpl in Hpath; try discriminate; reflexivity. }
  rewrite (extract_by_dialect rt response _ body st Hparse Hbody).
  rewrite resolveDialect_prefix.
  destruct Hcase as [Hpath | Habs].
  - now rewrite (at_path_follow _ _ _ Hpath).
  - now rewrite (Absent_follow _ _ Habs).
Qed.

(** Where the text is missing, optional chaining yields nothing truthy. *)
Lemma Missing_follow (path : list Step) (v : JsValue) :
  Missing path v -> truthy (follow path v) = false.
Proof.
  induction 1 as [k rest fields Hk | k rest fields x Hk _ IH | rest
                 | rest x xs _ IH | path | path | step rest b | step rest n
                 | k rest s Hk | k rest items Hk | rest | rest c s _ IH
                 | rest fields H0 | rest fields x H0 _ IH].
  - simpl. unfold opt_get; simpl. rewrite Hk; simpl.
    now rewrite follow_undefined.
  - simpl. unfold opt_get; simpl. rewrite Hk; simpl. exact IH.
  - simpl. unfold opt_get0; simpl. now rewrite follow_undefined.
  - simpl. unfold opt_get0; simpl. exact IH.
  - destruct path as [|[k|] rest]; simpl; [reflexivity| |].
    + unfold opt_get; simpl. now rewrite follow_undefined.
    + unfold opt_get0; simpl. now rewrite follow_undefined.
  - now rewrite follow_undefined.
  - destruct step; simpl; unfold opt_get, opt_get0; simpl;
      now rewrite follow_undefined.
  - destruct step; simpl; unfold opt_get, opt_get0; simpl;
      now rewrite follow_undefined.
  - simpl. unfold opt_get; simpl.
    destruct (String.eqb_spec k "length"); [contradiction|].
    now rewrite follow_undefined.
  - simpl. unfold opt_get; simpl.
    destruct (String.eqb_spec k "length"); [contradiction|].
    now rewrite follow_undefined.
  - simpl. unfold opt_get0; simpl. now rewrite follow_undefined.
  - simpl. unfold opt_get0; simpl. exact IH.
  - simpl. unfold opt_get0; simpl. rewrite H0; simpl.
    now rewrite follow_undefined.
  - simpl. unfold opt_get0; simpl. rewrite H0; simpl. exact IH.
Qed.

(** A path that breaks off inside the document, at a missing key or an
    empty array, is a missing text. *)
Lemma Absent_Missing (path : list Step) (v : JsValue) :
  Absent path v -> Missing path v.
Proof.
  induction 1; eauto using Missing.
Qed.

(** A document from which the text is missing has no value at the path. *)
Lemma Missing_at_path (path : list Step) (v x : JsValue) :
  Missing path v -> at_path path v = Some x -> x = JNull \/ x = JUndefined.
Proof.
  induction 1 as [k rest fields Hk | k rest fields y Hk _ IH | rest
                 | rest y ys _ IH | path | path | step rest b | step rest n
                 | k rest s Hk | k rest items Hk | rest | rest c s _ IH
                 | rest fields H0 | rest fields y H0 _ IH];
    simpl; intros Hat;
    try (destruct step; discriminate Hat); try discriminate Hat.
  - rewrite Hk in Hat. discriminate.
  - rewrite Hk in Hat. auto.
  - auto.
  - destruct path as [|[k|] rest]; simpl in Hat;
      [inversion Hat; auto | discriminate | discriminate].
  - destruct path as [|[k|] rest]; simpl in Hat;
      [inversion Hat; auto | discriminate | discriminate].
Qed.

(** C3: for every modelId and every parsed response object,
    [extractModelResponse] returns a value and does not throw; for a model
    of a known family, when the family's text is missing from the object -
    the path to it breaks off at whatever depth of the nested shape: a key
    that an object lacks, an empty array, a [null], or a value that is no
    container where one is expected - the value is the placeholder
    "No response from <Family> model". *)
Theorem C3_extraction_never_raises
    (modelId : string) (response : Response) (fields : Fields) (st : State) :
  parsed rt response = Ok (JObj fields) ->
  (exists v, fst (extractModelResponse rt response modelId st) = Ok v) /\
  (forall f,
      resolveDialect modelId = Some f ->
      Missing (family_path f) (JObj fields) ->
      fst (extractModelResponse rt response modelId st)
        = Ok (JStr (placeholder f))).
Proof.
  intros Hparse.
  pose proof (extract_by_dialect rt response modelId (JObj fields) st
                Hparse eq_refl) as Hx.
  split.
  - eexists. exact Hx.
  - intros f Hd Hmiss. rewrite Hx, Hd.
    unfold js_or. now rewrite (Missing_follow _ _ Hmiss).
Qed.

(** The payload of a known family is the one of the table, whatever
    follows the prefix, and it is built without a log entry. *)
Lemma prepare_family (f : Family) (suffix message : string) (st : State) :
  preparePromptForModel config message (family_prefix f ++ suffix) st
    = (Ok (family_payload config f message), st).
Proof.
  destruct f; reflexivity.
Qed.

(** C4: a modelId that starts with a known family prefix resolves to that
    family whatever follows the prefix; the payload built for it is that
    family's payload - the framed message under the family's text key and
    the family's parameter keys, each with its value, Titan's nested under
    [textGenerationConfig] - and the extraction reads that family's
    response field; and two modelIds with the same first matching prefix
    (or none) get the same payload and the same extracted text. *)
Theorem C4_dialect_by_first_prefix :
  (forall f suffix, resolveDialect (family_prefix f ++ suffix) = Some f) /\
  (forall f suffix message st,
      exists payload,
        preparePromptForModel config message (family_prefix f ++ suffix) st
          = (Ok payload, st) /\
        keys payload = family_keys f /\
        payload = family_payload config f message /\
        get payload (text_field f) = Ok (JStr (family_prompt f message)) /\
        keys (parameters_of f payload) =
          (if match f with Titan => true | _ => false end
           then family_parameter_keys f
           else text_field f :: family_parameter_keys f) /\
        (forall key value,
            In (key, value) (family_parameters config f) ->
            get (parameters_of f payload) key = Ok value)) /\
  (forall f suffix response body st,
      parsed rt response = Ok body ->
      nullish body = false ->
      fst (extractModelResponse rt response (family_prefix f ++ suffix) st)
        = Ok (js_or (follow (family_path f) body) (JStr (placeholder f)))) /\
  (forall m1 m2 message response st,
      resolveDialect m1 = resolveDialect m2 ->
      fst (preparePromptForModel config message m1 st)
        = fst (preparePromptForModel config message m2 st) /\
      fst (extractModelResponse rt response m1 st)
        = fst (extractModelResponse rt response m2 st)).
Proof.
  split; [exact resolveDialect_prefix|].
  split.
  { intros f suffix message st.
    exists (family_payload config f message).
    split; [apply prepare_family|].
    split; [destruct f; reflexivity|].
    split; [reflexivity|].
    split; [destruct f; reflexivity|].
    split; [destruct f; reflexivity|].
    intros key value Hin.
    destruct f; simpl in Hin;
      repeat (destruct Hin as [Hin|Hin]; [inversion Hin; reflexivity|]);
      contradiction. }
  split.
  { intros f suffix response body st Hparse Hbody.
    rewrite (extract_by_dialect rt response _ body st Hparse Hbody).
    now rewrite resolveDialect_prefix. }
  intros m1 m2 message response st Hd.
  pose proof (resolveDialect_tests m1) as H1.
  pose proof (resolveDialect_tests m2) as H2.
  rewrite Hd in H1.
  split.
  - unfold preparePromptForModel.
    destruct (resolveDialect m2) as [[| | |]|].
    + now rewrite H1, H2.
    + destruct H1 as [-> ->], H2 as [-> ->]; reflexivity.
    + destruct H1 as (-> & -> & ->), H2 as (-> & -> & ->); reflexivity.
    + destruct H1 as (-> & -> & -> & ->), H2 as (-> & -> & -> & ->); reflexivity.
    + destruct H1 as (-> & -> & -> & ->), H2 as (-> & -> & -> & ->); reflexivity.
  - destruct (parsed rt response) as [body|e] eqn:Hparse.
    + destruct (nullish body) eqn:Hbody.
      * unfold parsed in Hparse. unfold extractModelResponse. run. rewrite Hparse.
        destruct (get_nullish body "completion" Hbody) as (e1 & He1 & _).
        destruct (get_nullish body "completions" Hbody) as (e2 & He2 & _).
        destruct (get_nullish body "results" Hbody) as (e3 & He3 & _).
        destruct (get_nullish body "generations" Hbody) as (e4 & He4 & _).
        destruct (resolveDialect m2) as [[| | |]|].
        -- rewrite H1, H2, He1. reflexivity.
        -- destruct H1 as [-> ->], H2 as [-> ->]; rewrite He2; reflexivity.
        -- destruct H1 as (-> & -> & ->), H2 as (-> & -> & ->);
             rewrite He3; reflexivity.
        -- destruct H1 as (-> & -> & -> & ->), H2 as (-> & -> & -> & ->);
             rewrite He4; reflexivity.
        -- destruct H1 as (-> & -> & -> & ->), H2 as (-> & -> & -> & ->);
             rewrite He1; reflexivity.
      * rewrite !(extract_by_dialect rt response _ body st Hparse Hbody).
        now rewrite Hd.
    + now rewrite !(extract_parse_failure response _ e st Hparse).
Qed.

(** C5: for the unknown modelId "foo.bar-v1" and any message the payload
    has the key [max_tokens_to_sample]; extracting from the parsed response
    [{}] returns the text "{}"; and on every parsed object the extraction
    follows the chain completion, generation, answer, response, then
    JSON.stringify of the whole body, in that order. *)
Theorem C5_default_dialect_fallback :
  (forall message st,
      exists payload st',
        preparePromptForModel config message "foo.bar-v1" st = (Ok payload, st') /\
        In "max_tokens_to_sample" (keys payload) /\
        get payload "max_tokens_to_sample" = Ok (JNum (maxTokens (bedrock config)))) /\
  (forall response st,
      parsed rt response = Ok (JObj []) ->
      fst (extractModelResponse rt response "foo.bar-v1" st) = Ok (JStr "{}")) /\
  (forall response fields st,
      parsed rt response = Ok (JObj fields) ->
      fst (extractModelResponse rt response "foo.bar-v1" st)
        = Ok (js_or (of_option (lookup "completion" fields))
               (js_or (of_option (lookup "generation" fields))
                  (js_or (of_option (lookup "answer" fields))
                     (js_or (of_option (lookup "response" fields))
                        (JSON_stringify rt (JObj fields))))))).
Proof.
  split; [|split].
  - intros message st.
    destruct (prepare_default "foo.bar-v1" message st eq_refl) as (st' & Hrun).
    eexists; exists st'. split; [exact Hrun|].
    split; [simpl; auto | reflexivity].
  - intros response st Hparse.
    now rewrite (extract_by_dialect rt response _ (JObj []) st Hparse eq_refl).
  - intros response fields st Hparse.
    now rewrite (extract_by_dialect rt response _ (JObj fields) st Hparse eq_refl).
Qed.

End DialectClaims.

(** ** The invokers *)

Lemma sends_emit_log (evs : list Event) (n : nat) (level : LogLevel)
    (message : string) (details : list (string * Detail)) :
  sends (mkState (evs ++ [EvLog level message details]) n)
    = sends (mkState evs n).
Proof.
  unfold sends; simpl. rewrite flat_map_app; simpl. apply app_nil_r.
Qed.

Section InvokerClaims.

Variable rt : Runtime.
Variable config : Config.

(** C6: [invokeBedrockAgent] fails with the error "Bedrock agent
    configuration is incomplete" (under the invoker's prefix) whenever
    agentId or agentAliasId is absent, and otherwise returns exactly the
    placeholder message with [implementationStatus: 'pending'], whatever
    the message, the session and the history; in neither case is a command
    sent to the backend.  An identifier is present when it is set to a
    non-empty string, which is what the guard tests. *)
Theorem C6_agent_stub (message sessionId : JsValue) (st : State) :
  exists st',
    invokeBedrockAgent config message sessionId st =
      ((if present (agentId (bedrock config)) &&
           present (agentAliasId (bedrock config))
        then Ok (JObj [("message", JStr agent_placeholder);
                       ("implementationStatus", JStr "pending")])
        else Throw (new_Error
               "Error calling Bedrock agent: Bedrock agent configuration is incomplete")),
       st') /\
    sends st' = sends st.
Proof.
  unfold invokeBedrockAgent, present. run.
  destruct (truthy (env_value (agentId (bedrock config))));
    destruct (truthy (env_value (agentAliasId (bedrock config)))); simpl;
    eexists; (split; [reflexivity|]); cbn [events draws];
    rewrite !sends_emit_log; destruct st; reflexivity.
Qed.

Lemma prepare_total (message modelId : string) (st : State) :
  exists st',
    preparePromptForModel config message modelId st
      = (Ok (payload_for config message modelId), st').
Proof.
  unfold payload_for, preparePromptForModel.
  destruct (startsWith modelId "anthropic.claude"); [eexists; reflexivity|].
  destruct (startsWith modelId "ai21"); [eexists; reflexivity|].
  destruct (startsWith modelId "amazon.titan"); [eexists; reflexivity|].
  destruct (startsWith modelId "cohere"); eexists; reflexivity.
Qed.

Ltac run_prepare :=
  match goal with
  | |- context [preparePromptForModel ?c ?t ?m ?s] =>
      let st' := fresh "st" in
      let H := fresh "Hprepare" in
      destruct (prepare_total t m s) as [st' H]; rewrite H
  end.

(** What [invokeBedrockModel] does with the outcome of its [try] block. *)
Lemma invokeBedrockModel_outcome (message : JsValue) (st : State) :
  match invokeBedrockModel_try rt config message st with
  | (Ok v, st') => invokeBedrockModel rt config message st = (Ok v, st')
  | (Throw e, _) =>
      fst (invokeBedrockModel rt config message st) = Throw (model_failure e)
  end.
Proof.
  unfold invokeBedrockModel, try_catch.
  destruct (invokeBedrockModel_try rt config message st) as [[v|e] st'];
    reflexivity.
Qed.

(** C7: whatever fails inside [invokeBedrockModel] - the call on a message
    that is no string while the payload is prepared, the transport, the
    decoding of the response, the extraction from a null body - is caught
    and re-thrown as one plain [Error] whose message is
    "Error calling Bedrock model: " followed by the message of the original
    failure; every error that leaves [invokeBedrockModel] is such a plain
    [Error], without the properties of the transport's exceptions. *)
Theorem C7_model_failures_are_wrapped (message : JsValue) (st : State) :
  (forall e st',
      invokeBedrockModel_try rt config message st = (Throw e, st') ->
      fst (invokeBedrockModel rt config message st) = Throw (model_failure e)) /\
  (forall e',
      fst (invokeBedrockModel rt config message st) = Throw e' ->
      err_name e' = "Error" /\ err_extra e' = [] /\
      exists e st',
        invokeBedrockModel_try rt config message st = (Throw e, st') /\
        e' = model_failure e) /\
  (forall e,
      substring_receiver message = Throw e ->
      fst (invokeBedrockModel rt config message st) = Throw (model_failure e)) /\
  (forall text e,
      message = JStr text ->
      bedrockClient_send rt (command_for rt config text) = Throw e ->
      fst (invokeBedrockModel rt config message st) = Throw (model_failure e)) /\
  (forall text response e,
      message = JStr text ->
      bedrockClient_send rt (command_for rt config text) = Ok response ->
      parsed rt response = Throw e ->
      fst (invokeBedrockModel rt config message st) = Throw (model_failure e)) /\
  (forall text response body,
      message = JStr text ->
      bedrockClient_send rt (command_for rt config text) = Ok response ->
      parsed rt response = Ok body ->
      nullish body = true ->
      exists e, err_name e = "TypeError" /\
        fst (invokeBedrockModel rt config message st) = Throw (model_failure e)).
Proof.
  pose proof (invokeBedrockModel_outcome message st) as Hout.
  repeat split.
  - intros e st' H. now rewrite H in Hout.
  - destruct (invokeBedrockModel_try rt config message st) as [[v|e] st1].
    + rewrite Hout in H. discriminate.
    + rewrite Hout in H. now inversion H.
  - destruct (invokeBedrockModel_try rt config message st) as [[v|e] st1].
    + rewrite Hout in H. discriminate.
    + rewrite Hout in H. now inversion H.
  - destruct (invokeBedrockModel_try rt config message st) as [[v|e] st1].
    + rewrite Hout in H. discriminate.
    + rewrite Hout in H. inversion H. now exists e, st1.
  - intros e H. unfold invokeBedrockModel, invokeBedrockModel_try. run.
    now rewrite H.
  - intros text e -> Hsend.
    unfold invokeBedrockModel, invokeBedrockModel_try. run.
    cbn [substring_receiver]. run_prepare.
    fold (command_for rt config text). now rewrite Hsend.
  - intros text response e -> Hsend Hparse.
    unfold invokeBedrockModel, invokeBedrockModel_try. run.
    cbn [substring_receiver]. run_prepare.
    fold (command_for rt config text). rewrite Hsend.
    now rewrite (extract_parse_failure rt response _ e _ Hparse).
  - intros text response body -> Hsend Hparse Hbody.
    destruct (get_nullish body "completion" Hbody) as (e1 & He1 & Hn1).
    destruct (get_nullish body "completions" Hbody) as (e2 & He2 & Hn2).
    destruct (get_nullish body "results" Hbody) as (e3 & He3 & Hn3).
    destruct (get_nullish body "generations" Hbody) as (e4 & He4 & Hn4).
    unfold invokeBedrockModel, invokeBedrockModel_try. run.
    cbn [substring_receiver]. run_prepare.
    fold (command_for rt config text). rewrite Hsend.
    unfold parsed in Hparse. unfold extractModelResponse. run. rewrite Hparse.
    destruct (startsWith (modelId (bedrock config)) "anthropic.claude");
      [rewrite He1; eauto|].
    destruct (startsWith (modelId (bedrock config)) "ai21");
      [rewrite He2; eauto|].
    destruct (startsWith (modelId (bedrock config)) "amazon.titan");
      [rewrite He3; eauto|].
    destruct (startsWith (modelId (bedrock config)) "cohere");
      [rewrite He4; eauto|].
    rewrite He1; eauto.
Qed.

End InvokerClaims.

(** ** The request handler *)

Lemma append_assoc (a b c : string) : (a ++ b) ++ c = a ++ b ++ c.
Proof.
  induction a as [|x a IH]; simpl; [reflexivity | now rewrite IH].
Qed.

Lemma formatResponse_runs (rt : Runtime) (config : Config) (status : Z)
    (payload : JsValue) (st : State) :
  exists st',
    formatResponse rt config status payload st
      = (Ok (mkHttp status (response_headers config) (JSON_stringify rt payload)),
         st').
Proof.
  unfold formatResponse, response_headers, getCorsHeaders. run.
  destruct (existsb (String.eqb "*") (allowedOrigins config));
    eexists; reflexivity.
Qed.

Lemma stringify_generic (rt : Runtime) :
  JSON_stringify rt (JObj [("error", JStr "Internal server error");
                           ("message", JUndefined)])
    = JStr generic_body.
Proof. reflexivity. Qed.

Lemma stringify_detailed (rt : Runtime) (message : string) :
  JSON_stringify rt (JObj [("error", JStr "Internal server error");
                           ("message", JStr message)])
    = JStr (detailed_body message).
Proof.
  unfold JSON_stringify; cbn [serialize join_comma].
  unfold quote, detailed_body. rewrite !append_assoc.
  generalize (quote_chars message); intros quoted. reflexivity.
Qed.

Lemma detailed_is_not_generic (message : string) :
  detailed_body message <> generic_body.
Proof.
  unfold detailed_body, generic_body; cbn. intros H. discriminate H.
Qed.

(** What the handler does with the outcome of its [try] block. *)
Lemma handler_outcome (rt : Runtime) (config : Config) (event : JsValue)
    (st : State) :
  match handler_try rt config event st with
  | (Ok response, st') => handler rt config event st = (Ok response, st')
  | (Throw e, _) =>
      exists st',
        handler rt config event st =
          (Ok (mkHttp 500 (response_headers config)
                 (JStr (if details_enabled config
                        then detailed_body (err_message e)
                        else generic_body))), st')
  end.
Proof.
  unfold handler, try_catch.
  destruct (handler_try rt config event st) as [[response|e] st1];
    [reflexivity|].
  unfold bind at 1. unfold logger, emit.
  match goal with
  | |- context [formatResponse ?r ?c ?s ?p ?x] =>
      destruct (formatResponse_runs r c s p x) as [st' H]
  end.
  exists st'. rewrite H. unfold details_enabled.
  destruct (strict_eq_string (env_value (INCLUDE_ERROR_DETAILS config)) "true").
  - now rewrite stringify_detailed.
  - now rewrite stringify_generic.
Qed.

(** C8: the handler never throws; an error that escapes the request
    handling path is answered with status 500 and a body that carries the
    error's message if and only if INCLUDE_ERROR_DETAILS is 'true'; with the
    flag off the whole 500 response is the same for any two errors, of any
    two requests against any two backends. *)
Theorem C8_error_details_gated (rt : Runtime) (config : Config)
    (event : JsValue) (st : State) :
  (exists response st', handler rt config event st = (Ok response, st')) /\
  (forall e st1,
      handler_try rt config event st = (Throw e, st1) ->
      exists st',
        handler rt config event st =
          (Ok (mkHttp 500 (response_headers config)
                 (JStr (if details_enabled config
                        then detailed_body (err_message e)
                        else generic_body))), st')) /\
  (forall message, detailed_body message <> generic_body) /\
  (forall rt2 event2 st2 e1 e2 s1 s2,
      details_enabled config = false ->
      handler_try rt config event st = (Throw e1, s1) ->
      handler_try rt2 config event2 st2 = (Throw e2, s2) ->
      fst (handler rt config event st) = fst (handler rt2 config event2 st2)).
Proof.
  pose proof (handler_outcome rt config event st) as Hout.
  split; [|split; [|split]].
  - destruct (handler_try rt config event st) as [[response|e] st1].
    + now exists response, st1.
    + destruct Hout as [st' H]. eauto.
  - intros e st1 H. now rewrite H in Hout.
  - exact detailed_is_not_generic.
  - intros rt2 event2 st2 e1 e2 s1 s2 Hoff H1 H2.
    pose proof (handler_outcome rt2 config event2 st2) as Hout2.
    rewrite H1 in Hout. rewrite H2 in Hout2.
    destruct Hout as [st1' ->], Hout2 as [st2' ->].
    now rewrite Hoff.
Qed.

(** ** Validation of the inbound event *)

Lemma lookup_set_field_other (k key : string) (v : JsValue) (fields : Fields) :
  k <> key -> lookup k (set_field key v fields) = lookup k fields.
Proof.
  intros Hne. induction fields as [|[k0 x] rest IH]; simpl.
  - destruct (String.eqb_spec key k); [congruence | reflexivity].
  - destruct (String.eqb_spec k0 key) as [->|Hk0]; simpl.
    + destruct (String.eqb_spec key k); [congruence | reflexivity].
    + destruct (String.eqb_spec k0 k); [reflexivity | exact IH].
Qed.

(** A truthy [message] can only be read from an object, and giving the
    object a session id does not change it. *)
Lemma message_survives_assign (p m v : JsValue) :
  get p "message" = Ok m -> truthy m = true ->
  get (assign p "sessionId" v) "message" = Ok m /\
  exists x, get (assign p "sessionId" v) "sessionId" = Ok x.
Proof.
  destruct p; simpl; intros H Hm; inversion H; subst; try discriminate.
  rewrite lookup_set_field_other by discriminate.
  split; [reflexivity | eauto].
Qed.

(** The outcome of [validateRequest], case by case. *)
Lemma validateRequest_cases (rt : Runtime) (event : JsValue) (st : State) :
  exists v st',
    validateRequest rt event st = (Ok v, st') /\
    match get event "body" with
    | Throw _ => v = invalid "Invalid request format"
    | Ok b =>
        if truthy b then
          match JSON_parse rt b with
          | Throw _ => v = invalid "Invalid request format"
          | Ok p =>
              match get p "message" with
              | Throw _ => v = invalid "Invalid request format"
              | Ok m =>
                  if truthy m
                  then valid v = true /\ verror v = JUndefined /\
                       get (vbody v) "message" = Ok m
                  else v = invalid "Message is required"
              end
          end
        else v = invalid "Request body is required"
    end.
Proof.
  unfold validateRequest. run.
  destruct (get event "body") as [b|e0]; [|eexists; eexists; split; reflexivity].
  destruct (truthy b); cbn [negb]; [|eexists; eexists; split; reflexivity].
  destruct (JSON_parse rt b) as [p|e1]; [|eexists; eexists; split; reflexivity].
  destruct (get p "message") as [m|e2] eqn:Hm;
    [|eexists; eexists; split; reflexivity].
  destruct (truthy m) eqn:Htm; cbn [negb];
    [|eexists; eexists; split; reflexivity].
  destruct (get p "sessionId") as [s|e3] eqn:Hs.
  - destruct (truthy s); cbn [negb].
    + eexists; eexists; split; [reflexivity|]. now cbn.
    + unfold generateSessionId, Math_random_call. run.
      match goal with
      | |- context [assign p "sessionId" ?x] =>
          destruct (message_survives_assign p m x Hm Htm) as (Hkeep & y & Hy)
      end.
      rewrite Hy.
      eexists; eexists; split; [reflexivity|]. now cbn.
  - destruct p; simpl in Hm, Hs; discriminate.
Qed.

Ltac same_outcome :=
  repeat match goal with
         | H : Ok _ = Ok _ |- _ => inversion H; subst; clear H
         end;
  congruence.

(** C9: [validateRequest] never throws.  When the event has no body, when
    the body is no JSON, or when the parsed body has no message or an empty
    (falsy) one, it returns a failure with one of three short messages, and
    the handler answers with status 400 and that message; otherwise it
    returns valid with a body whose message field is the non-empty (truthy)
    value that was sent. *)
Theorem C9_validation_never_throws (rt : Runtime) (config : Config)
    (event : JsValue) (st : State) :
  exists v st',
    validateRequest rt event st = (Ok v, st') /\
    ((valid v = false /\
      (verror v = JStr "Request body is required" \/
       verror v = JStr "Invalid request format" \/
       verror v = JStr "Message is required") /\
      exists response st'',
        handler rt config event st = (Ok response, st'') /\
        statusCode response = 400%Z /\
        body response = JSON_stringify rt (JObj [("error", verror v)]))
     \/
     (valid v = true /\ verror v = JUndefined /\
      exists m, get (vbody v) "message" = Ok m /\ truthy m = true)) /\
    (forall b, get event "body" = Ok b -> truthy b = false ->
       v = invalid "Request body is required") /\
    (forall b e, get event "body" = Ok b -> truthy b = true ->
       JSON_parse rt b = Throw e ->
       v = invalid "Invalid request format") /\
    (forall b p m, get event "body" = Ok b -> truthy b = true ->
       JSON_parse rt b = Ok p -> get p "message" = Ok m -> truthy m = false ->
       v = invalid "Message is required") /\
    (forall b p m, get event "body" = Ok b -> truthy b = true ->
       JSON_parse rt b = Ok p -> get p "message" = Ok m -> truthy m = true ->
       valid v = true /\ get (vbody v) "message" = Ok m).
Proof.
  destruct (validateRequest_cases rt event st) as (v & st' & Hrun & Hcase).
  exists v, st'. split; [exact Hrun|].
  assert (Hbad : forall text, v = invalid text ->
            exists response st'',
              handler rt config event st = (Ok response, st'') /\
              statusCode response = 400%Z /\
              body response = JSON_stringify rt (JObj [("error", verror v)])).
  { intros text ->.
    pose proof (handler_outcome rt config event st) as Hout.
    unfold handler_try in Hout. unfold bind at 1 in Hout.
    unfold logger at 1, emit in Hout. unfold bind at 1 in Hout.
    match type of Hout with
    | context [validateRequest rt event ?s] =>
        destruct (validateRequest_cases rt event s) as (v1 & st1 & Hrun1 & Hcase1)
    end.
    assert (Hv1 : v1 = invalid text).
    { destruct (get event "body") as [b|]; [|congruence].
      destruct (truthy b); [|congruence].
      destruct (JSON_parse rt b) as [p|]; [|congruence].
      destruct (get p "message") as [m|]; [|congruence].
      destruct (truthy m); [|congruence].
      destruct Hcase as [Hvalid _]. discriminate Hvalid. }
    subst v1. rewrite Hrun1 in Hout. cbn [invalid valid negb verror] in Hout.
    unfold bind at 1 in Hout. unfold logger at 1, emit in Hout.
    match type of Hout with
    | context [formatResponse ?r ?c ?s ?p ?x] =>
        destruct (formatResponse_runs r c s p x) as [st2 H2]
    end.
    rewrite H2 in Hout. eexists; eexists; split; [exact Hout|].
    split; reflexivity. }
  assert (Hfail : forall text, v = invalid text ->
            valid v = false /\
            (verror v = JStr "Request body is required" \/
             verror v = JStr "Invalid request format" \/
             verror v = JStr "Message is required") ->
            (valid v = false /\
             (verror v = JStr "Request body is required" \/
              verror v = JStr "Invalid request format" \/
              verror v = JStr "Message is required") /\
             exists response st'',
               handler rt config event st = (Ok response, st'') /\
               statusCode response = 400%Z /\
               body response = JSON_stringify rt (JObj [("error", verror v)]))).
  { intros text Hv [H1 H2]. split; [exact H1|]. split; [exact H2|].
    exact (Hbad text Hv). }
  destruct (get event "body") as [b|e0] eqn:Hbody.
  2: { split; [left; apply (Hfail _ Hcase); rewrite Hcase; cbn [invalid valid verror]; auto|].
       repeat split; intros; congruence. }
  destruct (truthy b) eqn:Hb.
  2: { split; [left; apply (Hfail _ Hcase); rewrite Hcase; cbn [invalid valid verror]; auto|].
       repeat split; intros; same_outcome. }
  destruct (JSON_parse rt b) as [p|e1] eqn:Hparse.
  2: { split; [left; apply (Hfail _ Hcase); rewrite Hcase; cbn [invalid valid verror]; auto|].
       repeat split; intros; same_outcome. }
  destruct (get p "message") as [m|e2] eqn:Hmessage.
  2: { split; [left; apply (Hfail _ Hcase); rewrite Hcase; cbn [invalid valid verror]; auto|].
       repeat split; intros; same_outcome. }
  destruct (truthy m) eqn:Htm.
  2: { split; [left; apply (Hfail _ Hcase); rewrite Hcase; cbn [invalid valid verror]; auto|].
       repeat split; intros; same_outcome. }
  destruct Hcase as (Hvalid & Herr & Hmsg).
  split; [right; eauto|].
  repeat split; intros; same_outcome.
Qed.

(** ** The properties on concrete requests *)

(** C1: every dialect whose payload has a free-text prompt field,
    the default one included, is to wrap the message in the framing string.
    The four known families do ([framing_by_dialect]); the default branch
    does not: for the model "foo.bar-v1" and the message "hi" the payload
    has a [prompt] field and it holds the bare message "hi", which the
    framing string does not wrap. *)
Theorem C1_default_prompt_is_not_framed :
  resolveDialect "foo.bar-v1" = None /\
  exists payload st',
    preparePromptForModel (test_config false "foo.bar-v1" None None None)
                          "hi" "foo.bar-v1" initial_state
      = (Ok payload, st') /\
    get payload "prompt" = Ok (JStr "hi") /\
    ~ framed "hi" "hi".
Proof.
  split; [reflexivity|].
  eexists; eexists. split; [reflexivity|]. split; [reflexivity|].
  intros (before & after & H).
  apply (f_equal String.length) in H.
  rewrite !length_append in H. simpl in H. lia.
Qed.

(** C2 as stated fails at the empty text: a well-formed Claude response
    whose [completion] is the empty string does not come back as the empty
    string but as the placeholder. *)
Lemma C2_empty_text_is_not_returned :
  parsed (test_runtime (Ok claude_empty_reply)) (reply_of claude_empty_reply)
    = Ok (synthetic_response Claude EmptyString) /\
  at_path (family_path Claude) (synthetic_response Claude EmptyString)
    = Some (JStr EmptyString) /\
  fst (extractModelResponse (test_runtime (Ok claude_empty_reply))
         (reply_of claude_empty_reply) "anthropic.claude-v2" initial_state)
    = Ok (JStr "No response from Claude model") /\
  fst (extractModelResponse (test_runtime (Ok claude_empty_reply))
         (reply_of claude_empty_reply) "anthropic.claude-v2" initial_state)
    <> Ok (JStr EmptyString).
Proof.
  repeat split; try reflexivity. discriminate.
Qed.

(** The round trip on the Titan scenario of the specification. *)
Lemma C2_roundtrip_nonempty_text_witness :
  parsed (test_runtime (Ok titan_reply)) (reply_of titan_reply)
    = Ok (synthetic_response Titan "Running, Pending, Failed") /\
  at_path (family_path Titan)
          (synthetic_response Titan "Running, Pending, Failed")
    = Some (JStr "Running, Pending, Failed") /\
  "Running, Pending, Failed" <> EmptyString /\
  exists payload,
    preparePromptForModel titan_config "List 3 Kubernetes pod states"
      (family_prefix Titan ++ "-text-express-v1") initial_state
      = (Ok payload, initial_state) /\
    fst (extractModelResponse (test_runtime (Ok titan_reply))
           (reply_of titan_reply)
           (family_prefix Titan ++ "-text-express-v1") initial_state)
      = Ok (JStr "Running, Pending, Failed").
Proof.
  split; [reflexivity|]. split; [reflexivity|]. split; [discriminate|].
  apply (C2_roundtrip_nonempty_text (test_runtime (Ok titan_reply)) titan_config
           Titan "-text-express-v1" "List 3 Kubernetes pod states"
           "Running, Pending, Failed" (reply_of titan_reply)
           (synthetic_response Titan "Running, Pending, Failed") initial_state);
    [reflexivity | reflexivity | discriminate].
Defined.

(** An AI21 model and the response [{"completions":[{"data":null}]}]: the
    path to the text breaks off at the [null] under [data]. *)
Lemma C3_extraction_never_raises_witness :
  parsed (runtime_answering
            (JObj [("completions", JArr [JObj [("data", JNull)]])]))
         (mkResponse [])
    = Ok (JObj [("completions", JArr [JObj [("data", JNull)]])]) /\
  resolveDialect "ai21.j2-ultra-v1" = Some AI21 /\
  Missing (family_path AI21)
          (JObj [("completions", JArr [JObj [("data", JNull)]])]) /\
  fst (extractModelResponse
         (runtime_answering
            (JObj [("completions", JArr [JObj [("data", JNull)]])]))
         (mkResponse []) "ai21.j2-ultra-v1" initial_state)
    = Ok (JStr "No response from AI21 model").
Proof.
  assert (Hmiss : Missing (family_path AI21)
                    (JObj [("completions", JArr [JObj [("data", JNull)]])])).
  { eapply Missing_under_key; [reflexivity|].
    apply Missing_under_element.
    eapply Missing_under_key; [reflexivity|].
    apply Missing_null. }
  split; [reflexivity|]. split; [reflexivity|].
  split; [exact Hmiss|].
  exact (proj2 (C3_extraction_never_raises
                  (runtime_answering
                     (JObj [("completions", JArr [JObj [("data", JNull)]])]))
                  "ai21.j2-ultra-v1" (mkResponse []) _ initial_state
                  eq_refl) AI21 eq_refl Hmiss).
Defined.

(** Two Claude versions get the same payload and the same extraction. *)
Lemma C4_dialect_by_first_prefix_witness :
  resolveDialect "anthropic.claude-3-sonnet-20240229-v1:0"
    = resolveDialect "anthropic.claude-instant-v1" /\
  fst (preparePromptForModel titan_config "hi"
         "anthropic.claude-3-sonnet-20240229-v1:0" initial_state)
    = fst (preparePromptForModel titan_config "hi"
             "anthropic.claude-instant-v1" initial_state) /\
  fst (extractModelResponse (test_runtime (Ok "{}")) (reply_of "{}")
         "anthropic.claude-3-sonnet-20240229-v1:0" initial_state)
    = fst (extractModelResponse (test_runtime (Ok "{}")) (reply_of "{}")
             "anthropic.claude-instant-v1" initial_state).
Proof.
  split; [reflexivity|].
  apply (proj2 (proj2 (proj2 (C4_dialect_by_first_prefix
                                (test_runtime (Ok "{}")) titan_config)))).
  reflexivity.
Defined.

(** The unknown model and the response [{}]. *)
Lemma C5_default_dialect_fallback_witness :
  parsed (test_runtime (Ok "{}")) (reply_of "{}") = Ok (JObj []) /\
  fst (extractModelResponse (test_runtime (Ok "{}")) (reply_of "{}")
         "foo.bar-v1" initial_state)
    = Ok (JStr "{}").
Proof.
  split; [reflexivity|].
  apply (proj1 (proj2 (C5_default_dialect_fallback
                         (test_runtime (Ok "{}")) titan_config))).
  reflexivity.
Defined.

(** A throttled backend: the SDK's exception comes out as a plain Error. *)
Lemma C7_model_failures_are_wrapped_witness :
  bedrockClient_send (test_runtime (Throw throttling))
    (command_for (test_runtime (Throw throttling)) titan_config "hello")
    = Throw throttling /\
  fst (invokeBedrockModel (test_runtime (Throw throttling)) titan_config
         (JStr "hello") initial_state)
    = Throw (new_Error "Error calling Bedrock model: Too many requests").
Proof.
  split; [reflexivity|].
  apply (proj1 (proj2 (proj2 (proj2
           (C7_model_failures_are_wrapped (test_runtime (Throw throttling))
              titan_config (JStr "hello") initial_state))))
           "hello" throttling);
    reflexivity.
Defined.

(** A throttled backend with the details flag unset: the generic 500. *)
Lemma C8_error_details_gated_witness :
  exists e st1 st',
    handler_try (test_runtime (Throw throttling)) titan_config
                (event_with_body hello_request) initial_state
      = (Throw e, st1) /\
    err_message e = "Error calling Bedrock model: Too many requests" /\
    details_enabled titan_config = false /\
    handler (test_runtime (Throw throttling)) titan_config
            (event_with_body hello_request) initial_state
      = (Ok (mkHttp 500 (response_headers titan_config) (JStr generic_body)),
         st').
Proof.
  eexists; eexists.
  destruct (proj1 (proj2 (C8_error_details_gated
                            (test_runtime (Throw throttling)) titan_config
                            (event_with_body hello_request) initial_state))
              _ _ eq_refl) as [st' H].
  exists st'. split; [reflexivity|]. split; [reflexivity|].
  split; [reflexivity|]. exact H.
Defined.

(** A request with a message is valid and keeps its message. *)
Lemma C9_validation_never_throws_witness :
  get (event_with_body hello_request) "body" = Ok (JStr hello_request) /\
  truthy (JStr hello_request) = true /\
  JSON_parse (test_runtime (Ok "{}")) (JStr hello_request)
    = Ok (JObj [("message", JStr "hello")]) /\
  exists v,
    fst (validateRequest (test_runtime (Ok "{}"))
           (event_with_body hello_request) initial_state) = Ok v /\
    valid v = true /\
    get (vbody v) "message" = Ok (JStr "hello").
Proof.
  split; [reflexivity|]. split; [reflexivity|]. split; [reflexivity|].
  destruct (C9_validation_never_throws (test_runtime (Ok "{}")) titan_config
              (event_with_body hello_request) initial_state)
    as (v & st' & Hrun & _ & _ & _ & _ & Hvalid).
  exists v. rewrite Hrun. split; [reflexivity|].
  apply (Hvalid (JStr hello_request) (JObj [("message", JStr "hello")])
                (JStr "hello")); reflexivity.
Defined.

(** A Claude response whose completion is the empty string. *)
Lemma C10_empty_text_gives_placeholder_witness :
  parsed (test_runtime (Ok claude_empty_reply)) (reply_of claude_empty_reply)
    = Ok (synthetic_response Claude EmptyString) /\
  at_path (family_path Claude) (synthetic_response Claude EmptyString)
    = Some (JStr EmptyString) /\
  fst (extractModelResponse (test_runtime (Ok claude_empty_reply))
         (reply_of claude_empty_reply) (family_prefix Claude ++ "-v2")
         initial_state)
    = Ok (JStr "No response from Claude model").
Proof.
  split; [reflexivity|]. split; [reflexivity|].
  apply (C10_empty_text_gives_placeholder (test_runtime (Ok claude_empty_reply))
           Claude "-v2" (reply_of claude_empty_reply)
           (synthetic_response Claude EmptyString) initial_state);
    [reflexivity | left; reflexivity].
Defined.

(** The scenarios of the specification, run on the test double. *)

Example titan_scenario :
  exists payload,
    fst (preparePromptForModel titan_config "List 3 Kubernetes pod states"
           "amazon.titan-text-express-v1" initial_state) = Ok payload /\
    get payload "inputText"
      = Ok (JStr (FRAMING ++ "List 3 Kubernetes pod states")) /\
    get (opt_get payload "textGenerationConfig") "maxTokenCount"
      = Ok (JNum (NFinite 500 0)) /\
    fst (extractModelResponse (test_runtime (Ok titan_reply))
           (reply_of titan_reply) "amazon.titan-text-express-v1" initial_state)
      = Ok (JStr "Running, Pending, Failed").
Proof.
  eexists. repeat split; reflexivity.
Qed.

Example agent_scenario :
  fst (invokeBedrockAgent (test_config true "anthropic.claude-v2"
                             (Some "A1") (Some "AL1") None)
         (JStr "hello") (JStr "s1") initial_state)
    = Ok (JObj [("message", JStr agent_placeholder);
                ("implementationStatus", JStr "pending")]).
Proof. reflexivity. Qed.

Example agent_unconfigured :
  fst (invokeBedrockAgent (test_config true "anthropic.claude-v2"
                             (Some "A1") None None)
         (JStr "hello") (JStr "s1") initial_state)
    = Throw (new_Error
        "Error calling Bedrock agent: Bedrock agent configuration is incomplete").
Proof. reflexivity. Qed.

Example missing_body_is_rejected :
  exists response,
    fst (handler (test_runtime (Ok "{}")) titan_config
           (JObj [("httpMethod", JStr "POST"); ("body", JNull)]) initial_state)
      = Ok response /\
    statusCode response = 400%Z /\
    body response
      = JStr ("{" ++ dq ++ "error" ++ dq ++ ":" ++ dq
                  ++ "Request body is required" ++ dq ++ "}").
Proof.
  eexists. repeat split; reflexivity.
Qed.

Example unparseable_body_is_rejected :
  exists response,
    fst (handler (test_runtime (Ok "{}")) titan_config
           (event_with_body "not json") initial_state)
      = Ok response /\
    statusCode response = 400%Z /\
    body response
      = JStr ("{" ++ dq ++ "error" ++ dq ++ ":" ++ dq
                  ++ "Invalid request format" ++ dq ++ "}").
Proof.
  eexists. repeat split; reflexivity.
Qed.

Example empty_message_is_rejected :
  exists response,
    fst (handler (test_runtime (Ok "{}")) titan_config
           (event_with_body
              ("{" ++ dq ++ "message" ++ dq ++ ":" ++ dq ++ dq ++ "}"))
           initial_state)
      = Ok response /\
    statusCode response = 400%Z /\
    body response
      = JStr ("{" ++ dq ++ "error" ++ dq ++ ":" ++ dq
                  ++ "Message is required" ++ dq ++ "}").
Proof.
  eexists. repeat split; reflexivity.
Qed.

Example successful_request :
  exists response,
    fst (handler (test_runtime (Ok titan_reply)) titan_config
           (event_with_body hello_request) initial_state)
      = Ok response /\
    statusCode response = 200%Z /\
    body response
      = JStr ("{" ++ dq ++ "message" ++ dq ++ ":" ++ dq
                  ++ "Running, Pending, Failed" ++ dq ++ "}").
Proof.
  eexists. repeat split; reflexivity.
Qed.

(** * Further properties of the code *)

(** ** utils/logger.js: the level filter *)

Lemma LOG_LEVELS_of_level (level : LogLevel) :
  LOG_LEVELS (level_name level) = Some (EntryNumber (priority level)).
Proof.
  destruct level; reflexivity.
Qed.

(** The limit is the number of a level, from 0 to 4, or no number. *)
Lemma logLevelLimit_range (logging : LoggingConfig) (n : Z) :
  logLevelLimit logging = EntryNumber n -> (0 <= n <= 4)%Z.
Proof.
  unfold logLevelLimit, LOG_LEVELS.
  destruct (configuredLevel logging =? "error"); [intros H; inversion H; lia|].
  destruct (configuredLevel logging =? "warn"); [intros H; inversion H; lia|].
  destruct (configuredLevel logging =? "info"); [intros H; inversion H; lia|].
  destruct (configuredLevel logging =? "debug"); [intros H; inversion H; lia|].
  destruct (configuredLevel logging =? "trace"); [intros H; inversion H; lia|].
  destruct (existsb _ _); intros H; inversion H; lia.
Qed.

Lemma log_filtered_iff (rt : Runtime) (logging : LoggingConfig)
    (console : Console) (level : LogLevel) (message : string)
    (details : LogData) :
  log rt logging console level message details = None <->
  greater (EntryNumber (priority level)) (logLevelLimit logging) = true.
Proof.
  unfold log. rewrite LOG_LEVELS_of_level.
  destruct (greater _ _); split; intros H; try reflexivity; discriminate.
Qed.

(** An error-level call is printed whatever level is configured: no value
    of LOG_LEVEL silences errors. *)
Theorem log_error_is_never_filtered (rt : Runtime) (logging : LoggingConfig)
    (console : Console) (message : string) (details : LogData) :
  exists line,
    log rt logging console LError message details = Some (JStr line).
Proof.
  unfold log. rewrite LOG_LEVELS_of_level.
  assert (H : greater (EntryNumber (priority LError)) (logLevelLimit logging)
              = false).
  { destruct (logLevelLimit logging) as [n|] eqn:Hn; [|reflexivity].
    apply logLevelLimit_range in Hn. simpl. apply Z.ltb_ge. lia. }
  rewrite H. unfold JSON_stringify. cbn [serialize]. eauto.
Qed.

(** When the configured level, lowercased, names one of the five levels, a
    call is filtered out exactly when its level ranks above the configured
    one. *)
Theorem log_filters_by_rank (rt : Runtime) (logging : LoggingConfig)
    (console : Console) (configured level : LogLevel) (message : string)
    (details : LogData) :
  configuredLevel logging = level_name configured ->
  (log rt logging console level message details = None <->
   (priority configured < priority level)%Z).
Proof.
  intros Hc. rewrite log_filtered_iff.
  unfold logLevelLimit. rewrite Hc, LOG_LEVELS_of_level. simpl.
  apply Z.ltb_lt.
Qed.

(** A configured level that names neither a level nor a member of
    [Object.prototype] (a misspelt LOG_LEVEL) counts as [info]: debug and
    trace calls are filtered out, the others printed. *)
Theorem log_unknown_level_counts_as_info (rt : Runtime)
    (logging : LoggingConfig) (console : Console) (level : LogLevel)
    (message : string) (details : LogData) :
  LOG_LEVELS (configuredLevel logging) = None ->
  (log rt logging console level message details = None <->
   (priority LInfo < priority level)%Z).
Proof.
  intros Hc. rewrite log_filtered_iff.
  unfold logLevelLimit. rewrite Hc. simpl. apply Z.ltb_lt.
Qed.

(** [toLowerCase] leaves no capital letter. *)
Lemma lower_char_not_capital (c : ascii) :
  (nat_of_ascii (lower_char c) <? 65)%nat
  || (90 <? nat_of_ascii (lower_char c))%nat = true.
Proof.
  destruct c as [[] [] [] [] [] [] [] []]; vm_compute; reflexivity.
Qed.

Lemma toLowerCase_no_capital (s : string) : no_capital (toLowerCase s) = true.
Proof.
  induction s as [|c s IH]; simpl; [reflexivity|].
  now rewrite lower_char_not_capital, IH.
Qed.

(** The only inherited members a lowercased name can hit. *)
Lemma inherited_level_names (logging : LoggingConfig) :
  LOG_LEVELS (configuredLevel logging) = Some EntryInherited <->
  (configuredLevel logging = "constructor" \/
   configuredLevel logging = "__proto__").
Proof.
  pose proof (toLowerCase_no_capital
                (if logging_level logging =? EmptyString then "info"
                 else logging_level logging)) as Hlow.
  fold (configuredLevel logging) in Hlow.
  split.
  - unfold LOG_LEVELS.
    repeat match goal with
           | |- context [configuredLevel logging =? ?s] =>
               destruct (String.eqb_spec (configuredLevel logging) s) as [He|_];
               [try (intros H; discriminate H)|]
           end.
    unfold Object_prototype_members, existsb.
    repeat match goal with
           | |- context [configuredLevel logging =? ?s] =>
               destruct (String.eqb_spec (configuredLevel logging) s) as [He|_];
               [try (rewrite He in Hlow; discriminate Hlow); auto|]
           end.
    simpl. intros H; discriminate H.
  - intros [H|H]; rewrite H; reflexivity.
Qed.

(** LOG_LEVEL set to "constructor" or "__proto__", in any capitalisation,
    is no misspelling that falls back to [info]: the limit is then an
    inherited member of the level table, no number, and every call is
    printed, trace included. *)
Theorem log_inherited_level_prints_everything (rt : Runtime)
    (logging : LoggingConfig) (console : Console) (level : LogLevel)
    (message : string) (details : LogData) :
  configuredLevel logging = "constructor" \/
  configuredLevel logging = "__proto__" ->
  exists line,
    log rt logging console level message details = Some (JStr line).
Proof.
  intros H. apply inherited_level_names in H.
  unfold log. rewrite LOG_LEVELS_of_level.
  unfold logLevelLimit. rewrite H. simpl.
  unfold JSON_stringify. cbn [serialize]. eauto.
Qed.

(** ** utils/logger.js: the log data *)

Lemma lookup_set_detail_same (k : string) (d : Detail) (data : LogData) :
  lookup_detail k (set_detail k d data) = Some d.
Proof.
  induction data as [|[k0 x] rest IH]; simpl.
  - now rewrite String.eqb_refl.
  - destruct (String.eqb_spec k0 k) as [->|Hne]; simpl.
    + now rewrite String.eqb_refl.
    + destruct (String.eqb_spec k0 k); [contradiction | exact IH].
Qed.

Lemma lookup_set_detail_other (k k' : string) (d : Detail) (data : LogData) :
  k <> k' -> lookup_detail k (set_detail k' d data) = lookup_detail k data.
Proof.
  intros Hne. induction data as [|[k0 x] rest IH]; simpl.
  - destruct (String.eqb_spec k' k); [congruence | reflexivity].
  - destruct (String.eqb_spec k0 k') as [->|Hk0]; simpl.
    + destruct (String.eqb_spec k' k); [congruence | reflexivity].
    + destruct (String.eqb_spec k0 k); [reflexivity | exact IH].
Qed.

Lemma lookup_delete_detail_same (k : string) (data : LogData) :
  lookup_detail k (delete_detail k data) = None.
Proof.
  induction data as [|[k0 x] rest IH]; simpl; [reflexivity|].
  destruct (String.eqb_spec k0 k) as [->|Hne]; simpl; [exact IH|].
  destruct (String.eqb_spec k0 k); [contradiction | exact IH].
Qed.

Lemma lookup_delete_detail_other (k k' : string) (data : LogData) :
  k <> k' -> lookup_detail k (delete_detail k' data) = lookup_detail k data.
Proof.
  intros Hne. induction data as [|[k0 x] rest IH]; simpl; [reflexivity|].
  destruct (String.eqb_spec k0 k') as [->|Hk0]; simpl.
  - destruct (String.eqb_spec k' k); [congruence | exact IH].
  - destruct (String.eqb_spec k0 k); [reflexivity | exact IH].
Qed.

Lemma lookup_detail_app (k : string) (a b : LogData) :
  lookup_detail k (a ++ b)%list =
    match lookup_detail k a with
    | Some d => Some d
    | None => lookup_detail k b
    end.
Proof.
  induction a as [|[k0 x] rest IH]; simpl; [reflexivity|].
  destruct (k0 =? k); [reflexivity | exact IH].
Qed.

(** Spreading [details] over an object: the last entry of a key wins, and
    a key that [details] lacks keeps the object's value. *)
Lemma lookup_spread (k : string) (details init : LogData) :
  lookup_detail k
    (fold_left (fun data entry => set_detail (fst entry) (snd entry) data)
               details init) =
    match lookup_detail k (rev details) with
    | Some d => Some d
    | None => lookup_detail k init
    end.
Proof.
  revert init. induction details as [|[k0 x] rest IH]; intros init; simpl.
  - reflexivity.
  - rewrite IH, lookup_detail_app. simpl.
    destruct (lookup_detail k (rev rest)); [reflexivity|].
    destruct (String.eqb_spec k0 k) as [->|Hne].
    + apply lookup_set_detail_same.
    + apply lookup_set_detail_other. congruence.
Qed.

Lemma lookup_logData_of (logging : LoggingConfig) (console : Console)
    (level : LogLevel) (message : string) (details : LogData) (k : string) :
  k <> "timestamp" -> k <> "error" -> k <> "errorMessage" ->
  k <> "errorStack" -> k <> "errorName" ->
  lookup_detail k (logData_of logging console level message details)
    = lookup_detail k (spread_details level message details).
Proof.
  intros H1 H2 H3 H4 H5. unfold logData_of.
  assert (Hts : lookup_detail k
                  (if includeTimestamp logging
                   then set_detail "timestamp"
                          (DVal (JStr (Date_toISOString console)))
                          (spread_details level message details)
                   else spread_details level message details)
                = lookup_detail k (spread_details level message details)).
  { destruct (includeTimestamp logging); [|reflexivity].
    now apply lookup_set_detail_other. }
  destruct (lookup_detail "error" details) as [[v|e]|]; try exact Hts.
  rewrite lookup_delete_detail_other by exact H2.
  rewrite !lookup_set_detail_other by assumption.
  exact Hts.
Qed.

(** A [message] or [level] key among the details replaces the log's own
    message or level in the printed entry: the entry of
    [logger.info('Processing Bedrock request', { message, sessionId })]
    carries the user's message where the text of the log call should be.
    Without such a key the entry has the call's message and level. *)
Theorem log_details_override_message_and_level (logging : LoggingConfig)
    (console : Console) (level : LogLevel) (message : string)
    (details : LogData) :
  lookup_detail "message" (logData_of logging console level message details)
    = match lookup_detail "message" (rev details) with
      | Some d => Some d
      | None => Some (DVal (JStr message))
      end /\
  lookup_detail "level" (logData_of logging console level message details)
    = match lookup_detail "level" (rev details) with
      | Some d => Some d
      | None => Some (DVal (JStr (level_name level)))
      end.
Proof.
  split; (rewrite lookup_logData_of by discriminate);
    unfold spread_details; rewrite lookup_spread; reflexivity.
Qed.

(** When the details carry an error under [error], the printed entry has
    its message, name and stack under [errorMessage], [errorName] and
    [errorStack], and no [error] key: the error object itself, with the
    properties the SDK attached to it, is not printed. *)
Theorem log_formats_errors (logging : LoggingConfig) (console : Console)
    (level : LogLevel) (message : string) (details : LogData) (e : JsError) :
  lookup_detail "error" details = Some (DErr e) ->
  let data := logData_of logging console level message details in
  lookup_detail "errorMessage" data = Some (DVal (JStr (err_message e))) /\
  lookup_detail "errorName" data = Some (DVal (JStr (err_name e))) /\
  lookup_detail "errorStack" data = Some (DVal (JStr (Error_stack console e))) /\
  lookup_detail "error" data = None.
Proof.
  intros He data. unfold data, logData_of. rewrite He.
  repeat split.
  - rewrite lookup_delete_detail_other by discriminate.
    rewrite !lookup_set_detail_other by discriminate.
    apply lookup_set_detail_same.
  - rewrite lookup_delete_detail_other by discriminate.
    apply lookup_set_detail_same.
  - rewrite lookup_delete_detail_other by discriminate.
    rewrite lookup_set_detail_other by discriminate.
    apply lookup_set_detail_same.
  - apply lookup_delete_detail_same.
Qed.

(** ** The trace of a run *)

Section Produces.

Variable P : list Event -> Prop.
Hypothesis P_nil : P [].
Hypothesis P_app : forall a b, P a -> P b -> P (a ++ b)%list.
Hypothesis P_log : forall level message details,
    P [EvLog level message details].

Lemma produces_ret {A} (a : A) : produces P (ret a).
Proof.
  intros st. exists []. simpl. now rewrite app_nil_r.
Qed.

Lemma produces_throw {A} (e : JsError) : produces P (@throw A e).
Proof.
  intros st. exists []. simpl. now rewrite app_nil_r.
Qed.

Lemma produces_lift {A} (x : Exc A) : produces P (lift x).
Proof.
  intros st. exists []. simpl. now rewrite app_nil_r.
Qed.

Lemma produces_logger (level : LogLevel) (message : string)
    (details : list (string * Detail)) :
  produces P (logger level message details).
Proof.
  intros st. exists [EvLog level message details]. simpl. auto.
Qed.

Lemma produces_bind {A B} (m : M A) (k : A -> M B) :
  produces P m -> (forall a, produces P (k a)) -> produces P (bind m k).
Proof.
  intros Hm Hk st. unfold bind.
  destruct (Hm st) as (added1 & H1 & HP1).
  destruct (m st) as [[a|e] st1]; simpl in H1.
  - destruct (Hk a st1) as (added2 & H2 & HP2).
    exists (added1 ++ added2)%list. rewrite H2, H1, app_assoc. auto.
  - exists added1. simpl. auto.
Qed.

Lemma produces_try_catch {A} (m : M A) (handler : JsError -> M A) :
  produces P m -> (forall e, produces P (handler e)) ->
  produces P (try_catch m handler).
Proof.
  intros Hm Hh st. unfold try_catch.
  destruct (Hm st) as (added1 & H1 & HP1).
  destruct (m st) as [[a|e] st1]; simpl in H1.
  - exists added1. simpl. auto.
  - destruct (Hh e st1) as (added2 & H2 & HP2).
    exists (added1 ++ added2)%list. rewrite H2, H1, app_assoc. auto.
Qed.

Lemma produces_random (rt : Runtime) : produces P (Math_random_call rt).
Proof.
  intros st. exists []. simpl. now rewrite app_nil_r.
Qed.

End Produces.

Ltac produces_step :=
  match goal with
  | |- produces _ (bind _ _) => apply produces_bind; [assumption ..| |intros]
  | |- produces _ (try_catch _ _) =>
      apply produces_try_catch; [assumption ..| |intros]
  | |- produces _ (ret _) => apply produces_ret; assumption
  | |- produces _ (throw _) => apply produces_throw; assumption
  | |- produces _ (lift _) => apply produces_lift; assumption
  | |- produces _ (logger _ _ _) => apply produces_logger; assumption
  | |- produces _ (Math_random_call _) => apply produces_random; assumption
  | |- produces _ (if ?b then _ else _) => destruct b
  | |- produces _ (match ?x with _ => _ end) => destruct x
  end.

Section ProducesProgram.

Variable P : list Event -> Prop.
Hypothesis P_nil : P [].
Hypothesis P_app : forall a b, P a -> P b -> P (a ++ b)%list.
Hypothesis P_log : forall level message details,
    P [EvLog level message details].
Variable rt : Runtime.
Variable config : Config.

Lemma produces_prepare (message modelId : string) :
  produces P (preparePromptForModel config message modelId).
Proof.
  unfold preparePromptForModel. repeat produces_step.
Qed.

Lemma produces_extract (response : Response) (modelId : string) :
  produces P (extractModelResponse rt response modelId).
Proof.
  unfold extractModelResponse. repeat produces_step.
Qed.

Lemma produces_agent (message sessionId : JsValue) :
  produces P (invokeBedrockAgent config message sessionId).
Proof.
  unfold invokeBedrockAgent. repeat produces_step.
Qed.

Lemma produces_format (status : Z) (payload : JsValue) :
  produces P (formatResponse rt config status payload).
Proof.
  unfold formatResponse, getCorsHeaders. repeat produces_step.
Qed.

Lemma produces_validate (event : JsValue) :
  produces P (validateRequest rt event).
Proof.
  unfold validateRequest, generateSessionId. repeat produces_step.
Qed.

End ProducesProgram.

(** ** Commands sent to the backend *)

Lemma only_logs_nil : only_logs [].
Proof. reflexivity. Qed.

Lemma only_logs_app (a b : list Event) :
  only_logs a -> only_logs b -> only_logs (a ++ b)%list.
Proof.
  unfold only_logs; intros Ha Hb. now rewrite forallb_app, Ha, Hb.
Qed.

Lemma only_logs_log (level : LogLevel) (message : string)
    (details : list (string * Detail)) :
  only_logs [EvLog level message details].
Proof. reflexivity. Qed.

Lemma only_logs_sent (evs : list Event) :
  only_logs evs ->
  flat_map (fun ev => match ev with
                      | EvSend c => [c]
                      | EvLog _ _ _ => []
                      end) evs = [].
Proof.
  unfold only_logs. induction evs as [|[l m d|c] rest IH]; simpl; intros H.
  - reflexivity.
  - now apply IH.
  - discriminate.
Qed.

(** A computation that only logs sends nothing. *)
Lemma quiet_sends {A} (m : M A) (st : State) :
  produces only_logs m -> sends (snd (m st)) = sends st.
Proof.
  intros Hm. destruct (Hm st) as (added & Hev & Hlogs).
  unfold sends. rewrite Hev, flat_map_app, (only_logs_sent _ Hlogs).
  apply app_nil_r.
Qed.

Ltac quiet :=
  repeat first
    [ exact only_logs_nil | exact only_logs_app | exact only_logs_log
    | apply produces_prepare | apply produces_extract
    | apply produces_agent | apply produces_format
    | apply produces_validate | apply produces_logger
    | apply produces_lift
    | apply produces_bind; [| |intros] ].

Lemma prepare_value (config : Config) (message modelId : string) (st : State) :
  fst (preparePromptForModel config message modelId st)
    = Ok (payload_for config message modelId).
Proof.
  unfold payload_for, preparePromptForModel.
  destruct (startsWith modelId "anthropic.claude"); [reflexivity|].
  destruct (startsWith modelId "ai21"); [reflexivity|].
  destruct (startsWith modelId "amazon.titan"); [reflexivity|].
  destruct (startsWith modelId "cohere"); reflexivity.
Qed.

(** [invokeBedrockModel] sends exactly one command when the message is a
    string, whether the call then succeeds or fails, and nothing when the
    message is no string. *)
Lemma model_sends_one_command (rt : Runtime) (config : Config)
    (message : JsValue) (st : State) :
  sends (snd (invokeBedrockModel rt config message st)) =
    (sends st ++ match message with
                 | JStr text => [command_for rt config text]
                 | _ => []
                 end)%list.
Proof.
  assert (Hfail : forall e,
            substring_receiver message = Throw e ->
            sends (snd (invokeBedrockModel rt config message st)) = sends st).
  { intros e He. unfold invokeBedrockModel, invokeBedrockModel_try. run.
    rewrite He. cbn [snd]. unfold sends; cbn [events].
    rewrite flat_map_app. simpl. apply app_nil_r. }
  destruct message as [| | b | n | text | items | fields];
    try (rewrite app_nil_r; eapply Hfail; reflexivity).
  clear Hfail.
  unfold invokeBedrockModel, invokeBedrockModel_try, try_catch.
  unfold bind at 1. cbn [lift substring_receiver].
  unfold bind at 1. unfold logger at 1, emit at 1.
  unfold bind at 1.
  match goal with
  | |- context [preparePromptForModel ?c ?t ?m ?s] =>
      pose proof (prepare_value c t m s) as Hval;
      pose proof (quiet_sends (preparePromptForModel c t m) s
                    ltac:(quiet)) as Hq;
      destruct (preparePromptForModel c t m s) as [[payload|e] st1]
  end; cbn [fst snd] in Hval, Hq; [|discriminate Hval].
  inversion Hval; subst payload; clear Hval.
  fold (command_for rt config text).
  unfold bind at 1. unfold logger at 1, emit at 1.
  unfold bind at 1. unfold emit at 1.
  unfold bind at 1. unfold lift at 1.
  assert (Hsent : forall st2,
            sends st2 = (sends st ++ [command_for rt config text])%list ->
            forall level text' details,
              sends (mkState (events st2 ++ [EvLog level text' details])
                             (draws st2))
                = (sends st ++ [command_for rt config text])%list).
  { intros st2 H2 level text' details. rewrite <- H2.
    unfold sends; cbn [events]. rewrite flat_map_app. simpl. apply app_nil_r. }
  match goal with
  | |- context [bedrockClient_send rt ?c] =>
      destruct (bedrockClient_send rt c) as [response|e]
  end.
  2: { cbn [snd fst]. unfold bind, logger, emit, throw; cbn [snd fst].
       apply Hsent. unfold sends in *; cbn [events] in *.
       rewrite !flat_map_app. simpl. rewrite app_nil_r.
       rewrite flat_map_app in Hq. simpl in Hq. rewrite app_nil_r in Hq.
       now rewrite Hq. }
  unfold bind at 1.
  match goal with
  | |- context [extractModelResponse rt response ?m ?s] =>
      pose proof (quiet_sends (extractModelResponse rt response m) s
                    ltac:(quiet)) as Hq2;
      destruct (extractModelResponse rt response m s) as [[v|e] st3]
  end; cbn [fst snd] in Hq2.
  - assert (H3 : sends st3 = (sends st ++ [command_for rt config text])%list).
    { rewrite Hq2. unfold sends in *; cbn [events] in *.
      rewrite !flat_map_app. simpl. rewrite app_nil_r.
      rewrite flat_map_app in Hq. simpl in Hq. rewrite app_nil_r in Hq.
      now rewrite Hq. }
    unfold bind, lift, logger, emit, ret, throw.
    destruct (get v "length") as [len|e]; cbn [fst snd]; now apply Hsent.
  - assert (H3 : sends st3 = (sends st ++ [command_for rt config text])%list).
    { rewrite Hq2. unfold sends in *; cbn [events] in *.
      rewrite !flat_map_app. simpl. rewrite app_nil_r.
      rewrite flat_map_app in Hq. simpl in Hq. rewrite app_nil_r in Hq.
      now rewrite Hq. }
    unfold bind, lift, logger, emit, ret, throw. cbn [fst snd].
    now apply Hsent.
Qed.

Lemma request_sends (rt : Runtime) (config : Config)
    (message sessionId : JsValue) (st : State) :
  sends (snd (handleBedrockRequest rt config message sessionId st)) =
    (sends st ++
     if useAgent (bedrock config) then []
     else match message with
          | JStr text => [command_for rt config text]
          | _ => []
          end)%list.
Proof.
  unfold handleBedrockRequest, try_catch.
  unfold bind at 1. unfold logger at 1, emit at 1.
  set (st0 := mkState _ _).
  assert (H0 : sends st0 = sends st).
  { unfold st0, sends; cbn [events]. rewrite flat_map_app. simpl.
    apply app_nil_r. }
  assert (Hlog : forall st2 level text details,
            sends (mkState (events st2 ++ [EvLog level text details])
                           (draws st2)) = sends st2).
  { intros. unfold sends; cbn [events]. rewrite flat_map_app. simpl.
    apply app_nil_r. }
  destruct (useAgent (bedrock config)).
  - pose proof (quiet_sends (invokeBedrockAgent config message sessionId) st0
                  ltac:(quiet)) as Hq.
    destruct (invokeBedrockAgent config message sessionId st0) as [[v|e] st1];
      cbn [fst snd] in *.
    + now rewrite Hq, H0, app_nil_r.
    + unfold bind, logger, emit, throw; cbn [fst snd].
      now rewrite Hlog, Hq, H0, app_nil_r.
  - pose proof (model_sends_one_command rt config message st0)
      as Hq.
    destruct (invokeBedrockModel rt config message st0) as [[v|e] st1];
      cbn [fst snd] in *.
    + now rewrite Hq, H0.
    + unfold bind, logger, emit, throw; cbn [fst snd].
      now rewrite Hlog, Hq, H0.
Qed.

(** [handleBedrockRequest] sends what the chosen invoker sends: nothing in
    agent mode; in model mode exactly one command for a string message -
    the settings' modelId, JSON content types and the JSON text of the
    payload - whether the call then succeeds or fails, and none for a
    message that is no string. *)
Theorem handleBedrockRequest_sends (rt : Runtime) (config : Config)
    (message sessionId : JsValue) (st : State) :
  sends (snd (handleBedrockRequest rt config message sessionId st)) =
    (sends st ++
     if useAgent (bedrock config) then []
     else match message with
          | JStr text => [command_for rt config text]
          | _ => []
          end)%list.
Proof.
  exact (request_sends rt config message sessionId st).
Qed.

Section SendsSome.

Variable Q : list InvokeModelCommand -> Prop.
Hypothesis Q_nil : Q [].

Lemma quiet_sends_some {A} (m : M A) :
  produces only_logs m -> sends_some Q m.
Proof.
  intros Hm st. exists []. rewrite app_nil_r. split; [|exact Q_nil].
  now apply quiet_sends.
Qed.

Lemma quiet_then {A B} (m : M A) (k : A -> M B) :
  produces only_logs m -> (forall a, sends_some Q (k a)) ->
  sends_some Q (bind m k).
Proof.
  intros Hm Hk st. unfold bind.
  pose proof (quiet_sends m st Hm) as Hq.
  destruct (m st) as [[a|e] st1]; cbn [snd] in *.
  - destruct (Hk a st1) as (l & Hl & HQ). exists l. now rewrite Hl, Hq.
  - exists []. now rewrite app_nil_r.
Qed.

Lemma then_quiet {A B} (m : M A) (k : A -> M B) :
  sends_some Q m -> (forall a, produces only_logs (k a)) ->
  sends_some Q (bind m k).
Proof.
  intros Hm Hk st. unfold bind.
  destruct (Hm st) as (l & Hl & HQ).
  destruct (m st) as [[a|e] st1]; cbn [snd] in *.
  - exists l. now rewrite (quiet_sends (k a) st1 (Hk a)).
  - now exists l.
Qed.

Lemma then_quiet_catch {A} (m : M A) (handler : JsError -> M A) :
  sends_some Q m -> (forall e, produces only_logs (handler e)) ->
  sends_some Q (try_catch m handler).
Proof.
  intros Hm Hh st. unfold try_catch.
  destruct (Hm st) as (l & Hl & HQ).
  destruct (m st) as [[a|e] st1]; cbn [snd] in *.
  - now exists l.
  - exists l. now rewrite (quiet_sends (handler e) st1 (Hh e)).
Qed.

End SendsSome.

(** One request makes at most one call of the backend: whatever the event,
    the handler sends no command or exactly one, the command of the model
    invocation; in agent mode it sends none. *)
Theorem handler_sends_at_most_one_command (rt : Runtime) (config : Config)
    (event : JsValue) (st : State) :
  exists l,
    sends (snd (handler rt config event st)) = (sends st ++ l)%list /\
    at_most_one_command rt config l.
Proof.
  assert (Hnil : at_most_one_command rt config []) by (left; reflexivity).
  revert st. change (sends_some (at_most_one_command rt config)
                       (handler rt config event)).
  unfold handler. apply then_quiet_catch.
  2: { intros e. quiet. }
  unfold handler_try.
  apply quiet_then; [exact Hnil | quiet |].
  intros _. apply quiet_then; [exact Hnil | quiet |].
  intros v. destruct (negb (valid v)).
  - apply quiet_sends_some; [exact Hnil|]. quiet.
  - apply quiet_then; [exact Hnil | quiet |].
    intros message. apply quiet_then; [exact Hnil | quiet |].
    intros sessionId. apply then_quiet; [|intros; quiet].
    intros st. eexists. split; [apply request_sends|].
    destruct (useAgent (bedrock config)) eqn:Hagent; [exact Hnil|].
    destruct message; try exact Hnil.
    right. split; [exact Hagent | eauto].
Qed.

(** ** Results of the invokers *)

Lemma stringify_defined (rt : Runtime) (v : JsValue) :
  v <> JUndefined -> exists text, JSON_stringify rt v = JStr text.
Proof.
  unfold JSON_stringify.
  destruct v as [| | [|] | [m e| |neg] | s | items | fields]; intros H;
    try contradiction; cbn [serialize]; eauto.
Qed.

Lemma truthy_not_nullish (v : JsValue) : truthy v = true -> nullish v = false.
Proof.
  destruct v; simpl; intros H; try discriminate; reflexivity.
Qed.

Lemma dialect_text_defined (rt : Runtime) (modelId : string) (body : JsValue) :
  nullish body = false ->
  let v := match resolveDialect modelId with
           | Some f => js_or (follow (family_path f) body) (JStr (placeholder f))
           | None => fallback_chain rt body
           end in
  nullish v = false /\ (resolveDialect modelId <> None -> truthy v = true).
Proof.
  intros Hbody v. unfold v.
  destruct (resolveDialect modelId) as [f|].
  - assert (Ht : truthy (js_or (follow (family_path f) body)
                               (JStr (placeholder f))) = true).
    { unfold js_or.
      destruct (truthy (follow (family_path f) body)) eqn:Hf; [exact Hf|].
      destruct f; reflexivity. }
    split; [now apply truthy_not_nullish | intros _; exact Ht].
  - split; [|intros H; now elim H].
    destruct (stringify_defined rt body) as [text Htext].
    { destruct body; simpl in Hbody; discriminate. }
    unfold fallback_chain, js_or. rewrite Htext.
    repeat match goal with
           | |- context [if truthy ?x then _ else _] =>
               let H := fresh "H" in
               destruct (truthy x) eqn:H; [now apply truthy_not_nullish|]
           end.
    reflexivity.
Qed.

(** The extracted text can always be put in the answer: on every parsed
    body other than [null] the extraction returns a value that is neither
    null nor undefined, and for a model of a known family the value is
    truthy - an empty text never reaches the caller as the answer. *)
Theorem extracted_text_is_defined (rt : Runtime) (response : Response)
    (modelId : string) (body : JsValue) (st : State) :
  parsed rt response = Ok body ->
  nullish body = false ->
  exists v,
    fst (extractModelResponse rt response modelId st) = Ok v /\
    nullish v = false /\
    (resolveDialect modelId <> None -> truthy v = true).
Proof.
  intros Hparse Hbody.
  rewrite (extract_by_dialect rt response modelId body st Hparse Hbody).
  eexists. split; [reflexivity|].
  exact (dialect_text_defined rt modelId body Hbody).
Qed.

Lemma agent_result (config : Config) (message sessionId : JsValue)
    (st : State) :
  fst (invokeBedrockAgent config message sessionId st) =
    if present (agentId (bedrock config)) &&
       present (agentAliasId (bedrock config))
    then Ok (JObj [("message", JStr agent_placeholder);
                   ("implementationStatus", JStr "pending")])
    else Throw (new_Error
           "Error calling Bedrock agent: Bedrock agent configuration is incomplete").
Proof.
  unfold invokeBedrockAgent, present. run.
  destruct (truthy (env_value (agentId (bedrock config))));
    destruct (truthy (env_value (agentAliasId (bedrock config))));
    reflexivity.
Qed.

(** [handleBedrockRequest] returns what the chosen invoker returns, and
    throws the very error it throws. *)
Lemma handleBedrockRequest_result (rt : Runtime) (config : Config)
    (message sessionId : JsValue) (st : State) :
  exists st0,
    fst (handleBedrockRequest rt config message sessionId st) =
      if useAgent (bedrock config)
      then fst (invokeBedrockAgent config message sessionId st0)
      else fst (invokeBedrockModel rt config message st0).
Proof.
  unfold handleBedrockRequest, try_catch.
  unfold bind at 1. unfold logger at 1, emit at 1.
  set (st0 := mkState _ _). exists st0.
  destruct (useAgent (bedrock config)).
  - destruct (invokeBedrockAgent config message sessionId st0) as [[v|e] st1];
      reflexivity.
  - destruct (invokeBedrockModel rt config message st0) as [[v|e] st1];
      reflexivity.
Qed.

(** A message that is no string fails in [invokeBedrockModel]. *)
Lemma model_rejects_non_string (rt : Runtime) (config : Config)
    (message : JsValue) (e : JsError) (st : State) :
  substring_receiver message = Throw e ->
  fst (invokeBedrockModel rt config message st) = Throw (model_failure e).
Proof.
  intros H. unfold invokeBedrockModel, invokeBedrockModel_try. run.
  now rewrite H.
Qed.

Lemma model_transport_failure (rt : Runtime) (config : Config)
    (text : string) (e : JsError) (st : State) :
  bedrockClient_send rt (command_for rt config text) = Throw e ->
  fst (invokeBedrockModel rt config (JStr text) st) = Throw (model_failure e).
Proof.
  intros Hsend.
  unfold invokeBedrockModel, invokeBedrockModel_try. run.
  cbn [substring_receiver].
  match goal with
  | |- context [preparePromptForModel ?c ?t ?m ?s] =>
      destruct (prepare_total c t m s) as [st1 H]; rewrite H
  end.
  fold (command_for rt config text). now rewrite Hsend.
Qed.

(** A model invocation that goes through returns [{ message: text }]. *)
Lemma model_success (rt : Runtime) (config : Config)
    (text : string) (response : Response) (body : JsValue) (st : State) :
  bedrockClient_send rt (command_for rt config text) = Ok response ->
  parsed rt response = Ok body ->
  nullish body = false ->
  fst (invokeBedrockModel rt config (JStr text) st) =
    Ok (JObj [("message",
               match resolveDialect (modelId (bedrock config)) with
               | Some f => js_or (follow (family_path f) body)
                                 (JStr (placeholder f))
               | None => fallback_chain rt body
               end)]).
Proof.
  intros Hsend Hparse Hbody.
  unfold invokeBedrockModel, invokeBedrockModel_try, try_catch.
  unfold bind at 1. cbn [lift substring_receiver].
  unfold bind at 1. unfold logger at 1, emit at 1.
  unfold bind at 1.
  match goal with
  | |- context [preparePromptForModel ?c ?t ?m ?s] =>
      destruct (prepare_total c t m s) as [st1 H]; rewrite H
  end.
  fold (command_for rt config text).
  unfold bind at 1. unfold logger at 1, emit at 1.
  unfold bind at 1. unfold emit at 1.
  unfold bind at 1. unfold lift at 1. rewrite Hsend.
  unfold bind at 1.
  match goal with
  | |- context [extractModelResponse rt response ?m ?s] =>
      pose proof (extract_by_dialect rt response m body s Hparse Hbody) as Hx;
      destruct (dialect_text_defined rt m body Hbody) as [Hnn _];
      destruct (extractModelResponse rt response m s) as [[v|e] st3]
  end; cbn [fst] in Hx; [|discriminate Hx].
  inversion Hx as [Hv]. cbv zeta in Hnn.
  unfold bind at 1. unfold lift at 1.
  rewrite (get_not_nullish _ "length" Hnn).
  reflexivity.
Qed.

(** ** A request from end to end *)

Lemma bind_ok {A B} (m : M A) (k : A -> M B) (st st' : State) (b : B) :
  bind m k st = (Ok b, st') ->
  exists a st1, m st = (Ok a, st1) /\ k a st1 = (Ok b, st').
Proof.
  unfold bind. destruct (m st) as [[a|e] st1]; intros H; [eauto | discriminate].
Qed.

(** A request that passes validation is answered with what
    [handleBedrockRequest] makes of its message: 200 and the JSON text of
    the result, or 500 when it throws. *)
Lemma handler_valid (rt : Runtime) (config : Config) (event m : JsValue)
    (st : State) :
  valid_request rt event m ->
  exists sessionId st0 st',
    handler rt config event st =
      (match (if useAgent (bedrock config)
              then fst (invokeBedrockAgent config m sessionId st0)
              else fst (invokeBedrockModel rt config m st0)) with
       | Ok result =>
           Ok (mkHttp 200 (response_headers config) (JSON_stringify rt result))
       | Throw e =>
           Ok (mkHttp 500 (response_headers config) (failure_body config e))
       end, st').
Proof.
  intros (b & p & Hb & Htb & Hp & Hm & Htm).
  pose proof (handler_outcome rt config event st) as Hout.
  unfold handler_try in Hout. unfold bind at 1 in Hout.
  unfold logger at 1, emit in Hout. unfold bind at 1 in Hout.
  match type of Hout with
  | context [validateRequest rt event ?s] =>
      destruct (validateRequest_cases rt event s) as (v & st1 & Hrun & Hcase)
  end.
  rewrite Hb, Htb, Hp, Hm, Htm in Hcase. destruct Hcase as (Hv & _ & Hmsg).
  rewrite Hrun in Hout. rewrite Hv in Hout. cbn [negb] in Hout.
  unfold bind at 1 in Hout. unfold lift at 1 in Hout. rewrite Hmsg in Hout.
  assert (Hnn : nullish (vbody v) = false).
  { destruct (vbody v); simpl in Hmsg; try discriminate; reflexivity. }
  unfold bind at 1 in Hout. unfold lift at 1 in Hout.
  rewrite (get_not_nullish _ "sessionId" Hnn) in Hout.
  unfold bind at 1 in Hout.
  set (sessionId := opt_get (vbody v) "sessionId") in *.
  destruct (handleBedrockRequest_result rt config m sessionId st1)
    as (st0 & Hres).
  exists sessionId, st0. rewrite <- Hres.
  destruct (handleBedrockRequest rt config m sessionId st1) as [[result|e] st2];
    cbn [fst] in *.
  - destruct (formatResponse_runs rt config 200 result st2) as (st3 & Hf).
    rewrite Hf in Hout. eauto.
  - destruct Hout as [st' Hout]. exists st'. exact Hout.
Qed.

(** In agent mode every request that passes validation, whatever its
    message, gets the placeholder answer with status 200 when both agent
    identifiers are configured, and status 500 when one is missing. *)
Theorem agent_mode_end_to_end (rt : Runtime) (config : Config)
    (event m : JsValue) (st : State) :
  valid_request rt event m ->
  useAgent (bedrock config) = true ->
  exists st',
    handler rt config event st =
      (Ok (if present (agentId (bedrock config)) &&
              present (agentAliasId (bedrock config))
           then mkHttp 200 (response_headers config)
                  (JSON_stringify rt
                     (JObj [("message", JStr agent_placeholder);
                            ("implementationStatus", JStr "pending")]))
           else mkHttp 500 (response_headers config)
                  (failure_body config
                     (new_Error
                        "Error calling Bedrock agent: Bedrock agent configuration is incomplete"))),
       st').
Proof.
  intros Hvalid Hagent.
  destruct (handler_valid rt config event m st Hvalid) as (sid & st0 & st' & H).
  exists st'. rewrite H, Hagent, agent_result.
  destruct (present (agentId (bedrock config)) &&
            present (agentAliasId (bedrock config))); reflexivity.
Qed.

(** A message that is truthy but no string (a number, an object, [true])
    passes validation; in model mode the request then fails inside the
    model invocation and is answered with status 500, not 400. *)
Theorem non_string_message_ends_as_500 (rt : Runtime) (config : Config)
    (event m : JsValue) (st : State) :
  valid_request rt event m ->
  (forall text, m <> JStr text) ->
  useAgent (bedrock config) = false ->
  exists st',
    handler rt config event st =
      (Ok (mkHttp 500 (response_headers config)
             (failure_body config
                (new_Error
                   "Error calling Bedrock model: message.substring is not a function"))),
       st').
Proof.
  intros Hvalid Hm Hagent.
  destruct (handler_valid rt config event m st Hvalid) as (sid & st0 & st' & H).
  exists st'. rewrite H, Hagent.
  assert (Hr : substring_receiver m
               = Throw (TypeError "message.substring is not a function")).
  { destruct Hvalid as (b & p & _ & _ & _ & _ & Htm).
    destruct m; simpl in Htm; try discriminate; try reflexivity.
    now elim (Hm s). }
  now rewrite (model_rejects_non_string rt config m _ st0 Hr).
Qed.

(** A failure of the backend call reaches the caller as status 500; with
    INCLUDE_ERROR_DETAILS on, the body carries the transport's message
    behind "Error calling Bedrock model: ", and nothing else of the
    transport's exception. *)
Theorem transport_failure_end_to_end (rt : Runtime) (config : Config)
    (event : JsValue) (text : string) (e : JsError) (st : State) :
  valid_request rt event (JStr text) ->
  useAgent (bedrock config) = false ->
  bedrockClient_send rt (command_for rt config text) = Throw e ->
  exists st',
    handler rt config event st =
      (Ok (mkHttp 500 (response_headers config)
             (failure_body config
                (new_Error ("Error calling Bedrock model: " ++ err_message e)))),
       st').
Proof.
  intros Hvalid Hagent Hsend.
  destruct (handler_valid rt config event (JStr text) st Hvalid)
    as (sid & st0 & st' & H).
  exists st'. rewrite H, Hagent.
  now rewrite (model_transport_failure rt config text e st0 Hsend).
Qed.

(** A request that goes through in model mode is answered with status 200
    and the JSON text of [{ message: text }], the text being what the
    model's dialect extracts from the backend's answer. *)
Theorem model_mode_end_to_end (rt : Runtime) (config : Config)
    (event : JsValue) (text : string) (response : Response) (body : JsValue)
    (st : State) :
  valid_request rt event (JStr text) ->
  useAgent (bedrock config) = false ->
  bedrockClient_send rt (command_for rt config text) = Ok response ->
  parsed rt response = Ok body ->
  nullish body = false ->
  exists st',
    handler rt config event st =
      (Ok (mkHttp 200 (response_headers config)
             (JSON_stringify rt
                (JObj [("message",
                        match resolveDialect (modelId (bedrock config)) with
                        | Some f => js_or (follow (family_path f) body)
                                          (JStr (placeholder f))
                        | None => fallback_chain rt body
                        end)]))),
       st').
Proof.
  intros Hvalid Hagent Hsend Hparse Hbody.
  destruct (handler_valid rt config event (JStr text) st Hvalid)
    as (sid & st0 & st' & H).
  exists st'. rewrite H, Hagent.
  now rewrite (model_success rt config text response body st0
                 Hsend Hparse Hbody).
Qed.

(** ** The shape of every answer *)

Lemma model_ok_object (rt : Runtime) (config : Config) (message v : JsValue)
    (st st' : State) :
  invokeBedrockModel rt config message st = (Ok v, st') ->
  exists text, v = JObj [("message", text)].
Proof.
  intros H. pose proof (invokeBedrockModel_outcome rt config message st) as Hout.
  destruct (invokeBedrockModel_try rt config message st) as [[v0|e] st0] eqn:Htry.
  - rewrite Hout in H. inversion H; subst v0 st0. clear H Hout.
    unfold invokeBedrockModel_try in Htry.
    repeat (apply bind_ok in Htry; destruct Htry as (? & ? & _ & Htry)).
    unfold ret in Htry. inversion Htry. eauto.
  - rewrite H in Hout. discriminate Hout.
Qed.

Lemma request_ok_object (rt : Runtime) (config : Config)
    (message sessionId v : JsValue) (st st' : State) :
  handleBedrockRequest rt config message sessionId st = (Ok v, st') ->
  exists fields, v = JObj fields.
Proof.
  unfold handleBedrockRequest, try_catch.
  unfold bind at 1. unfold logger at 1, emit at 1.
  set (st0 := mkState _ _).
  destruct (useAgent (bedrock config)).
  - pose proof (agent_result config message sessionId st0) as Ha.
    destruct (invokeBedrockAgent config message sessionId st0) as [[r|e] st1];
      cbn [fst] in Ha.
    + intros H; inversion H; subst.
      destruct (present _ && present _); inversion Ha. eauto.
    + unfold bind, logger, emit, throw. intros H; discriminate H.
  - destruct (invokeBedrockModel rt config message st0) as [[r|e] st1] eqn:Hm.
    + intros H; inversion H; subst.
      destruct (model_ok_object rt config message v st0 st' Hm) as [text ->].
      eauto.
    + unfold bind, logger, emit, throw. intros H; discriminate H.
Qed.

(** Whatever the event and whatever the backend does, the handler answers
    - it never throws - with status 200, 400 or 500, the configured
    headers, and a body that is a JSON text. *)
Theorem handler_always_answers (rt : Runtime) (config : Config)
    (event : JsValue) (st : State) :
  exists status text st',
    handler rt config event st =
      (Ok (mkHttp status (response_headers config) (JStr text)), st') /\
    (status = 200 \/ status = 400 \/ status = 500)%Z.
Proof.
  pose proof (handler_outcome rt config event st) as Hout.
  destruct (handler_try rt config event st) as [[response|e] st1] eqn:Htry.
  2: { destruct Hout as [st' H]. exists 500%Z. eexists; exists st'.
       split; [exact H | auto]. }
  rewrite Hout. clear Hout.
  unfold handler_try in Htry.
  apply bind_ok in Htry. destruct Htry as (? & ? & _ & Htry).
  apply bind_ok in Htry. destruct Htry as (v & st2 & _ & Htry).
  destruct (negb (valid v)).
  - apply bind_ok in Htry. destruct Htry as (? & st3 & _ & Htry).
    destruct (formatResponse_runs rt config 400 (JObj [("error", verror v)]) st3)
      as (st4 & Hf).
    rewrite Hf in Htry. inversion Htry; subst.
    destruct (stringify_defined rt (JObj [("error", verror v)])) as [text Ht];
      [discriminate|].
    rewrite Ht. exists 400%Z, text, st1. auto.
  - apply bind_ok in Htry. destruct Htry as (m & ? & _ & Htry).
    apply bind_ok in Htry. destruct Htry as (sid & st3 & _ & Htry).
    apply bind_ok in Htry. destruct Htry as (result & st4 & Hreq & Htry).
    destruct (request_ok_object rt config m sid result st3 st4 Hreq)
      as [fields ->].
    destruct (formatResponse_runs rt config 200 (JObj fields) st4)
      as (st5 & Hf).
    rewrite Hf in Htry. inversion Htry; subst.
    destruct (stringify_defined rt (JObj fields)) as [text Ht]; [discriminate|].
    rewrite Ht. exists 200%Z, text, st1. auto.
Qed.

(** ** Session ids *)

Lemma substring_length (n m : nat) (s : string) :
  String.length (substring n m s) = Nat.min m (String.length s - n).
Proof.
  revert n m. induction s as [|c s IH]; intros [|n] [|m]; simpl;
    try reflexivity; try (rewrite IH; reflexivity).
  all: rewrite ?IH; simpl; try lia.
Qed.

(** A generated session id takes the next two random numbers; it has at
    most 26 characters, exactly 26 when both numbers print in base 36 with
    15 characters or more, and it is empty when both print with fewer than
    three (as the number 0 does: "0"). *)
Theorem generateSessionId_length (rt : Runtime) (st : State) :
  exists id,
    generateSessionId rt st
      = (Ok id, mkState (events st) (S (S (draws st)))) /\
    id = substring 2 13 (Number_toString rt 36 (Math_random rt (draws st))) ++
         substring 2 13 (Number_toString rt 36 (Math_random rt (S (draws st)))) /\
    String.length id <= 26 /\
    (15 <= String.length (Number_toString rt 36 (Math_random rt (draws st))) ->
     15 <= String.length (Number_toString rt 36 (Math_random rt (S (draws st)))) ->
     String.length id = 26) /\
    (String.length (Number_toString rt 36 (Math_random rt (draws st))) <= 2 ->
     String.length (Number_toString rt 36 (Math_random rt (S (draws st)))) <= 2 ->
     id = EmptyString).
Proof.
  eexists. split; [reflexivity|]. split; [reflexivity|].
  cbn [draws events].
  rewrite length_append, !substring_length.
  split; [lia|]. split; [lia|].
  intros H1 H2.
  assert (E : forall s, String.length s <= 2 -> substring 2 13 s = EmptyString).
  { intros s Hs. destruct s as [|a [|b [|c s]]]; simpl in *; try reflexivity; lia. }
  now rewrite (E _ H1), (E _ H2).
Qed.

Lemma lookup_set_field_same (key : string) (v : JsValue) (fields : Fields) :
  lookup key (set_field key v fields) = Some v.
Proof.
  induction fields as [|[k0 x] rest IH]; simpl.
  - now rewrite String.eqb_refl.
  - destruct (String.eqb_spec k0 key) as [->|Hne]; simpl.
    + now rewrite String.eqb_refl.
    + destruct (String.eqb_spec k0 key); [contradiction | exact IH].
Qed.

(** A session id that the request supplies is kept: the parsed body comes
    back as it is, no random number is drawn and nothing is logged.
    Without one (absent, empty, or any falsy value) the body gets a
    generated id under [sessionId], two random numbers are drawn, and
    every other field of the body is as it was sent. *)
Theorem validateRequest_session_id (rt : Runtime) (event b p m : JsValue)
    (st : State) :
  get event "body" = Ok b -> truthy b = true ->
  JSON_parse rt b = Ok p ->
  get p "message" = Ok m -> truthy m = true ->
  (truthy (opt_get p "sessionId") = true ->
   validateRequest rt event st = (Ok (mkValidation true p JUndefined), st)) /\
  (truthy (opt_get p "sessionId") = false ->
   exists fields id st0 st',
     p = JObj fields /\
     generateSessionId rt st = (Ok id, st0) /\
     validateRequest rt event st
       = (Ok (mkValidation true
                (JObj (set_field "sessionId" (JStr id) fields)) JUndefined),
          st') /\
     draws st' = S (S (draws st)) /\
     lookup "sessionId" (set_field "sessionId" (JStr id) fields)
       = Some (JStr id) /\
     forall k, k <> "sessionId" ->
       lookup k (set_field "sessionId" (JStr id) fields) = lookup k fields).
Proof.
  intros Hb Htb Hp Hm Htm.
  assert (Hnn : nullish p = false).
  { destruct p; simpl in Hm; try discriminate; reflexivity. }
  split; intros Hs.
  - unfold validateRequest. run. rewrite Hb, Htb; cbn [negb].
    rewrite Hp, Hm, Htm; cbn [negb].
    rewrite (get_not_nullish p "sessionId" Hnn), Hs. reflexivity.
  - assert (Hobj : exists fields, p = JObj fields).
    { destruct p; simpl in Hm; inversion Hm; subst; simpl in Htm;
        try discriminate; eauto. }
    destruct Hobj as [fields ->].
    exists fields. eexists; eexists; eexists.
    split; [reflexivity|]. split; [reflexivity|].
    split.
    + unfold validateRequest. run. rewrite Hb, Htb; cbn [negb].
      rewrite Hp, Hm, Htm; cbn [negb].
      rewrite (get_not_nullish _ "sessionId" Hnn), Hs; cbn [negb].
      unfold generateSessionId, Math_random_call. run.
      cbn [assign get]. rewrite lookup_set_field_same. reflexivity.
    + split; [reflexivity|]. split; [apply lookup_set_field_same|].
      intros k Hk. now apply lookup_set_field_other.
Qed.

(** ** What is logged about the message *)

Lemma begins_nil : begins_with [] [].
Proof. now exists []. Qed.

Lemma begins_any (added : list Event) : begins_with [] added.
Proof. now exists added. Qed.

Lemma produces_emit_any (ev : Event) : produces (begins_with []) (emit ev).
Proof.
  intros st. exists [ev]. split; [reflexivity | apply begins_any].
Qed.

Lemma produces_log_first {A} (first : list Event) (level : LogLevel)
    (message : string) (details : list (string * Detail)) (k : unit -> M A) :
  (forall a, produces (begins_with first) (k a)) ->
  produces (begins_with (EvLog level message details :: first))
           (bind (logger level message details) k).
Proof.
  intros Hk st. unfold bind, logger, emit.
  destruct (Hk tt (mkState (events st ++ [EvLog level message details])
                           (draws st))) as (added & Hev & rest & Hrest).
  exists (EvLog level message details :: added). split.
  - rewrite Hev. cbn [events]. now rewrite <- app_assoc.
  - exists rest. now rewrite Hrest.
Qed.

Lemma produces_try_first {A} (first : list Event) (m : M A)
    (handler : JsError -> M A) :
  produces (begins_with first) m ->
  (forall e, produces (begins_with []) (handler e)) ->
  produces (begins_with first) (try_catch m handler).
Proof.
  intros Hm Hh st. unfold try_catch.
  destruct (Hm st) as (added & Hev & rest & Hrest).
  destruct (m st) as [[a|e] st1]; cbn [snd] in *.
  - exists added. split; [exact Hev | now exists rest].
  - destruct (Hh e st1) as (added2 & Hev2 & _).
    exists (added ++ added2)%list. split.
    + now rewrite Hev2, Hev, app_assoc.
    + exists (rest ++ added2)%list. now rewrite Hrest, app_assoc.
Qed.

Ltac anything :=
  repeat first
    [ exact begins_nil
    | intros; apply begins_any
    | apply produces_emit_any
    | apply produces_prepare | apply produces_extract
    | apply produces_logger | apply produces_lift | apply produces_ret
    | apply produces_throw
    | apply produces_bind; [| |intros] ].

Lemma substring_whole (n : nat) (s : string) :
  String.length s <= n -> substring 0 n s = s.
Proof.
  revert n. induction s as [|c s IH]; intros [|n] H; simpl in *;
    try reflexivity; try lia.
  rewrite IH by lia. reflexivity.
Qed.

Lemma append_empty (s : string) : s ++ EmptyString = s.
Proof.
  induction s as [|c s IH]; simpl; [reflexivity | now rewrite IH].
Qed.

(** In model mode the trace of a request starts with two info entries.
    The first, of [handleBedrockRequest], carries the whole message and the
    session id, however long the message is.  The second, of
    [invokeBedrockModel], carries the message cut to its first 100
    characters and "...": the message itself when it has at most 100
    characters, never more than 103 characters. *)
Theorem request_log_entries (rt : Runtime) (config : Config) (text : string)
    (sessionId : JsValue) (st : State) :
  useAgent (bedrock config) = false ->
  (exists rest,
     events (snd (handleBedrockRequest rt config (JStr text) sessionId st)) =
       (events st ++
        [EvLog LInfo "Processing Bedrock request"
               [("message", DVal (JStr text)); ("sessionId", DVal sessionId)];
         EvLog LInfo "Calling Bedrock model"
               [("modelId", DVal (JStr (modelId (bedrock config))));
                ("message", DVal (JStr (logged_message text)))]] ++ rest)%list) /\
  String.length (logged_message text) <= 103 /\
  (String.length text <= 100 -> logged_message text = text) /\
  (100 < String.length text ->
   logged_message text = substring 0 100 text ++ "..." /\
   String.length (logged_message text) = 103).
Proof.
  intros Hagent. split; [|split; [|split]].
  - assert (H : produces
                  (begins_with
                     [EvLog LInfo "Processing Bedrock request"
                        [("message", DVal (JStr text));
                         ("sessionId", DVal sessionId)];
                      EvLog LInfo "Calling Bedrock model"
                        [("modelId", DVal (JStr (modelId (bedrock config))));
                         ("message", DVal (JStr (logged_message text)))]])
                  (handleBedrockRequest rt config (JStr text) sessionId)).
    { unfold handleBedrockRequest. rewrite Hagent.
      apply produces_try_first; [|intros e; anything].
      apply produces_log_first. intros _.
      unfold invokeBedrockModel.
      apply produces_try_first; [|intros e; anything].
      unfold invokeBedrockModel_try.
      intros st0. unfold bind at 1. cbn [lift substring_receiver].
      revert st0.
      match goal with
      | |- forall st0, exists added, events (snd (?m st0)) = _ /\ _ =>
          change (produces
                    (begins_with
                       [EvLog LInfo "Calling Bedrock model"
                          [("modelId", DVal (JStr (modelId (bedrock config))));
                           ("message", DVal (JStr (logged_message text)))]])
                    m)
      end.
      apply produces_log_first. intros _. cbv zeta. anything. }
    destruct (H st) as (added & Hev & rest & Hrest).
    exists rest. now rewrite Hev, Hrest.
  - unfold logged_message. rewrite length_append, substring_length.
    destruct (100 <? String.length text)%nat; cbn [String.length]; lia.
  - intros Hlen. unfold logged_message.
    destruct (Nat.ltb_spec 100 (String.length text)); [lia|].
    now rewrite append_empty, substring_whole.
  - intros Hlen. unfold logged_message.
    destruct (Nat.ltb_spec 100 (String.length text)); [|lia].
    split; [reflexivity|].
    rewrite length_append, substring_length. cbn [String.length]. lia.
Qed.

(** ** CORS origins from the environment *)

Lemma split_comma_not_empty (text : string) : split_comma text <> [].
Proof.
  induction text as [|c text IH]; simpl; [discriminate|].
  destruct (Ascii.eqb c ","); [discriminate|].
  destruct (split_comma text); discriminate.
Qed.

(** With the settings of [config.js] every response has a string under
    Access-Control-Allow-Origin, never undefined: "*" when ALLOWED_ORIGINS
    is unset or empty or lists "*" between its commas, and otherwise the
    text before its first comma; the other listed origins are not used. *)
Theorem cors_origin_from_environment (parsers : NumberParsers)
    (env : ProcessEnv) :
  exists origin,
    lookup "Access-Control-Allow-Origin"
           (response_headers (load_config parsers env)) = Some (JStr origin) /\
    match env_ALLOWED_ORIGINS env with
    | None => origin = "*"
    | Some text =>
        if text =? EmptyString then origin = "*"
        else if existsb (String.eqb "*") (split_comma text) then origin = "*"
        else hd_error (split_comma text) = Some origin
    end.
Proof.
  unfold response_headers, getCorsHeaders, load_config; cbn [allowedOrigins].
  destruct (env_ALLOWED_ORIGINS env) as [text|]; cbn [env_value truthy].
  - destruct (String.eqb_spec text EmptyString) as [->|Hne]; cbn [negb].
    + exists "*". split; reflexivity.
    + unfold or_default.
      destruct (String.eqb_spec text EmptyString); [contradiction|].
      destruct (existsb (String.eqb "*") (split_comma text)) eqn:Hstar.
      * exists "*". split; reflexivity.
      * pose proof (split_comma_not_empty text) as Hs.
        destruct (split_comma text) as [|first others]; [contradiction|].
        exists first. split; reflexivity.
  - exists "*". split; reflexivity.
Qed.

(** ** The further properties on concrete inputs *)

(** LOG_LEVEL=DEBUG: a trace call is filtered out. *)
Lemma log_filters_by_rank_witness :
  configuredLevel (mkLogging "DEBUG" true) = level_name LDebug /\
  (log (test_runtime (Ok "{}")) (mkLogging "DEBUG" true) test_console
       LTrace "entering" [] = None <->
   (priority LDebug < priority LTrace)%Z).
Proof.
  split; [reflexivity|].
  apply (log_filters_by_rank (test_runtime (Ok "{}")) (mkLogging "DEBUG" true)
           test_console LDebug LTrace "entering" []).
  reflexivity.
Defined.

(** LOG_LEVEL=verbose: a debug call is filtered out as under info. *)
Lemma log_unknown_level_counts_as_info_witness :
  LOG_LEVELS (configuredLevel (mkLogging "verbose" true)) = None /\
  (log (test_runtime (Ok "{}")) (mkLogging "verbose" true) test_console
       LDebug "payload" [] = None <->
   (priority LInfo < priority LDebug)%Z).
Proof.
  split; [reflexivity|].
  apply (log_unknown_level_counts_as_info (test_runtime (Ok "{}"))
           (mkLogging "verbose" true) test_console LDebug "payload" []).
  reflexivity.
Defined.

(** LOG_LEVEL=Constructor: a trace call is printed. *)
Lemma log_inherited_level_prints_everything_witness :
  (configuredLevel (mkLogging "Constructor" true) = "constructor" \/
   configuredLevel (mkLogging "Constructor" true) = "__proto__") /\
  exists line,
    log (test_runtime (Ok "{}")) (mkLogging "Constructor" true) test_console
        LTrace "entering" [] = Some (JStr line).
Proof.
  split; [left; reflexivity|].
  apply (log_inherited_level_prints_everything (test_runtime (Ok "{}"))
           (mkLogging "Constructor" true) test_console LTrace "entering" []).
  left; reflexivity.
Defined.

(** The entry of a throttled call. *)
Lemma log_formats_errors_witness :
  lookup_detail "error" [("error", DErr throttling)] = Some (DErr throttling) /\
  lookup_detail "errorMessage"
    (logData_of (mkLogging "info" true) test_console LError
                "Error calling Bedrock model" [("error", DErr throttling)])
    = Some (DVal (JStr "Too many requests")) /\
  lookup_detail "error"
    (logData_of (mkLogging "info" true) test_console LError
                "Error calling Bedrock model" [("error", DErr throttling)])
    = None.
Proof.
  split; [reflexivity|].
  destruct (log_formats_errors (mkLogging "info" true) test_console LError
              "Error calling Bedrock model" [("error", DErr throttling)]
              throttling eq_refl) as (H1 & _ & _ & H4).
  split; [exact H1 | exact H4].
Defined.

(** An AI21 model and the answer [{}]. *)
Lemma extracted_text_is_defined_witness :
  parsed (test_runtime (Ok "{}")) (reply_of "{}") = Ok (JObj []) /\
  nullish (JObj []) = false /\
  exists v,
    fst (extractModelResponse (test_runtime (Ok "{}")) (reply_of "{}")
           "ai21.j2-ultra-v1" initial_state) = Ok v /\
    nullish v = false /\
    (resolveDialect "ai21.j2-ultra-v1" <> None -> truthy v = true).
Proof.
  split; [reflexivity|]. split; [reflexivity|].
  apply (extracted_text_is_defined (test_runtime (Ok "{}")) (reply_of "{}")
           "ai21.j2-ultra-v1" (JObj []) initial_state); reflexivity.
Defined.

Lemma hello_is_valid (rt_reply : Exc string) :
  valid_request (test_runtime rt_reply) (event_with_body hello_request)
                (JStr "hello").
Proof.
  exists (JStr hello_request), (JObj [("message", JStr "hello")]).
  repeat split; reflexivity.
Defined.

(** Agent mode with both identifiers set. *)
Lemma agent_mode_end_to_end_witness :
  valid_request (test_runtime (Ok "{}")) (event_with_body hello_request)
                (JStr "hello") /\
  useAgent (bedrock (test_config true "anthropic.claude-v2"
                       (Some "A1") (Some "AL1") None)) = true /\
  exists st',
    handler (test_runtime (Ok "{}"))
            (test_config true "anthropic.claude-v2" (Some "A1") (Some "AL1") None)
            (event_with_body hello_request) initial_state =
      (Ok (mkHttp 200
             (response_headers
                (test_config true "anthropic.claude-v2" (Some "A1") (Some "AL1")
                             None))
             (JSON_stringify (test_runtime (Ok "{}"))
                (JObj [("message", JStr agent_placeholder);
                       ("implementationStatus", JStr "pending")]))),
       st').
Proof.
  split; [apply hello_is_valid|]. split; [reflexivity|].
  apply (agent_mode_end_to_end (test_runtime (Ok "{}"))
           (test_config true "anthropic.claude-v2" (Some "A1") (Some "AL1") None)
           (event_with_body hello_request) (JStr "hello") initial_state
           (hello_is_valid (Ok "{}")) eq_refl).
Defined.

Lemma number_is_valid :
  valid_request number_request_runtime (event_with_body number_request)
                (JNum (NFinite 5 0)).
Proof.
  exists (JStr number_request), (JObj [("message", JNum (NFinite 5 0))]).
  repeat split; reflexivity.
Defined.

(** The request [{ message: 5 }] in model mode. *)
Lemma non_string_message_ends_as_500_witness :
  valid_request number_request_runtime (event_with_body number_request)
                (JNum (NFinite 5 0)) /\
  (forall text, JNum (NFinite 5 0) <> JStr text) /\
  useAgent (bedrock titan_config) = false /\
  exists st',
    handler number_request_runtime titan_config
            (event_with_body number_request) initial_state =
      (Ok (mkHttp 500 (response_headers titan_config)
             (failure_body titan_config
                (new_Error
                   "Error calling Bedrock model: message.substring is not a function"))),
       st').
Proof.
  split; [exact number_is_valid|]. split; [discriminate|].
  split; [reflexivity|].
  apply (non_string_message_ends_as_500 number_request_runtime titan_config
           (event_with_body number_request) (JNum (NFinite 5 0)) initial_state
           number_is_valid);
    [discriminate | reflexivity].
Defined.

(** A throttled backend. *)
Lemma transport_failure_end_to_end_witness :
  valid_request (test_runtime (Throw throttling))
                (event_with_body hello_request) (JStr "hello") /\
  useAgent (bedrock titan_config) = false /\
  bedrockClient_send (test_runtime (Throw throttling))
    (command_for (test_runtime (Throw throttling)) titan_config "hello")
    = Throw throttling /\
  exists st',
    handler (test_runtime (Throw throttling)) titan_config
            (event_with_body hello_request) initial_state =
      (Ok (mkHttp 500 (response_headers titan_config)
             (failure_body titan_config
                (new_Error "Error calling Bedrock model: Too many requests"))),
       st').
Proof.
  split; [apply hello_is_valid|]. split; [reflexivity|]. split; [reflexivity|].
  apply (transport_failure_end_to_end (test_runtime (Throw throttling))
           titan_config (event_with_body hello_request) "hello" throttling
           initial_state (hello_is_valid (Throw throttling)) eq_refl eq_refl).
Defined.

(** The Titan scenario through the handler. *)
Lemma model_mode_end_to_end_witness :
  valid_request (test_runtime (Ok titan_reply))
                (event_with_body hello_request) (JStr "hello") /\
  useAgent (bedrock titan_config) = false /\
  bedrockClient_send (test_runtime (Ok titan_reply))
    (command_for (test_runtime (Ok titan_reply)) titan_config "hello")
    = Ok (reply_of titan_reply) /\
  parsed (test_runtime (Ok titan_reply)) (reply_of titan_reply)
    = Ok (synthetic_response Titan "Running, Pending, Failed") /\
  exists st',
    handler (test_runtime (Ok titan_reply)) titan_config
            (event_with_body hello_request) initial_state =
      (Ok (mkHttp 200 (response_headers titan_config)
             (JSON_stringify (test_runtime (Ok titan_reply))
                (JObj [("message", JStr "Running, Pending, Failed")]))),
       st').
Proof.
  split; [apply hello_is_valid|]. split; [reflexivity|]. split; [reflexivity|].
  split; [reflexivity|].
  apply (model_mode_end_to_end (test_runtime (Ok titan_reply)) titan_config
           (event_with_body hello_request) "hello" (reply_of titan_reply)
           (synthetic_response Titan "Running, Pending, Failed") initial_state
           (hello_is_valid (Ok titan_reply)) eq_refl eq_refl eq_refl eq_refl).
Defined.

(** Two random numbers that print as "0" give the empty session id. *)
Lemma generateSessionId_length_witness :
  String.length (Number_toString zero_runtime 36 (Math_random zero_runtime 0)) <= 2 /\
  String.length (Number_toString zero_runtime 36 (Math_random zero_runtime 1)) <= 2 /\
  exists id,
    fst (generateSessionId zero_runtime initial_state) = Ok id /\
    id = EmptyString.
Proof.
  split; [simpl; lia|]. split; [simpl; lia|].
  destruct (generateSessionId_length zero_runtime initial_state)
    as (id & Hrun & _ & _ & _ & Hempty).
  exists id. rewrite Hrun. split; [reflexivity|].
  apply Hempty; simpl; lia.
Defined.

(** A request without a session id gets one. *)
Lemma validateRequest_session_id_witness :
  truthy (opt_get (JObj [("message", JStr "hello")]) "sessionId") = false /\
  exists fields id st0 st',
    JObj [("message", JStr "hello")] = JObj fields /\
    generateSessionId (test_runtime (Ok "{}")) initial_state = (Ok id, st0) /\
    validateRequest (test_runtime (Ok "{}")) (event_with_body hello_request)
                    initial_state
      = (Ok (mkValidation true
               (JObj (set_field "sessionId" (JStr id) fields)) JUndefined),
         st') /\
    draws st' = 2 /\
    lookup "sessionId" (set_field "sessionId" (JStr id) fields)
      = Some (JStr id) /\
    forall k, k <> "sessionId" ->
      lookup k (set_field "sessionId" (JStr id) fields) = lookup k fields.
Proof.
  split; [reflexivity|].
  apply (proj2 (validateRequest_session_id (test_runtime (Ok "{}"))
                  (event_with_body hello_request) (JStr hello_request)
                  (JObj [("message", JStr "hello")]) (JStr "hello")
                  initial_state eq_refl eq_refl eq_refl eq_refl eq_refl)).
  reflexivity.
Defined.

(** The two entries of a short message. *)
Lemma request_log_entries_witness :
  useAgent (bedrock titan_config) = false /\
  exists rest,
    events (snd (handleBedrockRequest (test_runtime (Ok titan_reply))
                   titan_config (JStr "hello") (JStr "s1") initial_state)) =
      (events initial_state ++
       [EvLog LInfo "Processing Bedrock request"
              [("message", DVal (JStr "hello")); ("sessionId", DVal (JStr "s1"))];
        EvLog LInfo "Calling Bedrock model"
              [("modelId", DVal (JStr (modelId (bedrock titan_config))));
               ("message", DVal (JStr (logged_message "hello")))]] ++ rest)%list.
Proof.
  split; [reflexivity|].
  apply (proj1 (request_log_entries (test_runtime (Ok titan_reply)) titan_config
                  "hello" (JStr "s1") initial_state eq_refl)).
Defined.

(** The settings of [config.js] on sample environments. *)

Example origins_listed :
  split_comma "https://a.example,https://b.example"
    = ["https://a.example"; "https://b.example"].
Proof. reflexivity. Qed.

Example processing_entry_shows_the_user_message :
  lookup_detail "message"
    (logData_of (mkLogging "info" true) test_console LInfo
                "Processing Bedrock request"
                [("message", DVal (JStr "hello")); ("sessionId", DVal (JStr "s1"))])
    = Some (DVal (JStr "hello")).
Proof. reflexivity. Qed.

(** Responses from which the text is missing, run on the extraction. *)

Example empty_object_gives_placeholder :
  Missing (family_path AI21) (JObj []) /\
  fst (extractModelResponse (runtime_answering (JObj [])) (mkResponse [])
         "ai21.j2-ultra-v1" initial_state)
    = Ok (JStr "No response from AI21 model").
Proof.
  split; [apply Missing_key; reflexivity | reflexivity].
Qed.

Example null_results_give_placeholder :
  Missing (family_path Titan) (JObj [("results", JNull)]) /\
  fst (extractModelResponse (runtime_answering (JObj [("results", JNull)]))
         (mkResponse []) "amazon.titan-text-express-v1" initial_state)
    = Ok (JStr "No response from Titan model").
Proof.
  split; [|reflexivity].
  eapply Missing_under_key; [reflexivity | apply Missing_null].
Qed.

Example scalar_generations_give_placeholder :
  Missing (family_path Cohere) (JObj [("generations", JNum (NFinite 7 0))]) /\
  fst (extractModelResponse
         (runtime_answering (JObj [("generations", JNum (NFinite 7 0))]))
         (mkResponse []) "cohere.command-text-v14" initial_state)
    = Ok (JStr "No response from Cohere model").
Proof.
  split; [|reflexivity].
  eapply Missing_under_key; [reflexivity | apply Missing_in_number].
Qed.

(** The parameters of the Titan payload sit under [textGenerationConfig]. *)
Example titan_parameters :
  exists payload,
    fst (preparePromptForModel titan_config "hi"
           "amazon.titan-text-express-v1" initial_state) = Ok payload /\
    keys (opt_get payload "textGenerationConfig")
      = ["maxTokenCount"; "temperature"; "topP"] /\
    get (opt_get payload "textGenerationConfig") "maxTokenCount"
      = Ok (JNum (NFinite 500 0)) /\
    get (opt_get payload "textGenerationConfig") "temperature"
      = Ok (JNum (NFinite 5 (-1))) /\
    get (opt_get payload "textGenerationConfig") "topP"
      = Ok (JNum (NFinite 9 (-1))).
Proof.
  eexists. repeat split; reflexivity.
Qed.
